(** * NTLM security provider (msultra/spnego, initiators/ntlm/provider.go)

    A shallow embedding of the NTLM provider: the NEGOTIATE message
    builder [InitSecContext], the CHALLENGE consumer and AUTHENTICATE
    builder [AcceptSecContext], the signing entry point [GetMIC] and
    [SessionKey].  Byte buffers are lists of 8-bit integers, the
    provider struct is a record threaded through every call, and Go's
    [error] values are the strings given to [errors.New]. *)

From Stdlib Require Import String Ascii ZArith List Bool Lia.
Import ListNotations.
Open Scope Z_scope.

(** ** Bytes, fixed-width integers and slices *)

Definition bytes := list Z.

Definition wrap8 (z : Z) : Z := z mod 256.
Definition wrap16 (z : Z) : Z := z mod 65536.
Definition wrap32 (z : Z) : Z := z mod 4294967296.

Definition is_uint32 (z : Z) : Prop := 0 <= z < 4294967296.

(** Go's [len(b)] converted with [uint16(...)] and [uint32(...)]. *)
Definition len (b : bytes) : Z := Z.of_nat (length b).

(** [b[lo:hi]] for [lo <= hi <= len(b)]. *)
Definition slice (lo hi : nat) (b : bytes) : bytes :=
  firstn (hi - lo) (skipn lo b).

(** [make([]byte, n)]. *)
Definition make (n : nat) : bytes := repeat 0 n.

(** [copy(dst[lo:hi], src)]: the first [min (hi - lo) (len src)] bytes
    of [src] overwrite [dst] from index [lo]; the rest of [dst] stays. *)
Definition copy (dst : bytes) (lo hi : nat) (src : bytes) : bytes :=
  let k := Nat.min (hi - lo) (length src) in
  firstn lo dst ++ firstn k src ++ skipn (lo + k) dst.

(** Little-endian encodings ([encoding/binary].LittleEndian). *)
Definition le16 (v : Z) : bytes :=
  [wrap8 v; wrap8 (Z.shiftr v 8)].

Definition le32 (v : Z) : bytes :=
  [wrap8 v; wrap8 (Z.shiftr v 8); wrap8 (Z.shiftr v 16); wrap8 (Z.shiftr v 24)].

Definition le64 (v : Z) : bytes :=
  le32 v ++ le32 (Z.shiftr v 32).

(** [binary.LittleEndian.PutUint16(b[lo:lo+2], v)] and the 32-bit one. *)
Definition PutUint16 (b : bytes) (lo : nat) (v : Z) : bytes :=
  copy b lo (lo + 2) (le16 (wrap16 v)).

Definition PutUint32 (b : bytes) (lo : nat) (v : Z) : bytes :=
  copy b lo (lo + 4) (le32 (wrap32 v)).

(** [binary.LittleEndian.Uint16(b)] and [Uint32(b)] on a slice of at
    least two (four) bytes. *)
Definition Uint16 (b : bytes) : Z :=
  Z.lor (nth 0 b 0) (Z.shiftl (nth 1 b 0) 8).

Definition Uint32 (b : bytes) : Z :=
  Z.lor (Z.lor (nth 0 b 0) (Z.shiftl (nth 1 b 0) 8))
        (Z.lor (Z.shiftl (nth 2 b 0) 16) (Z.shiftl (nth 3 b 0) 24)).

(** [bytes.Equal]. *)
Fixpoint bytes_eqb (a b : bytes) : bool :=
  match a, b with
  | [], [] => true
  | x :: a', y :: b' => (x =? y) && bytes_eqb a' b'
  | _, _ => false
  end.

(** A Go string literal as bytes. *)
Fixpoint bytes_of_string (s : string) : bytes :=
  match s with
  | EmptyString => []
  | String c s' => Z.of_N (N_of_ascii c) :: bytes_of_string s'
  end.

Definition is_empty (s : string) : bool :=
  match s with EmptyString => true | _ => false end.

(** ** Errors

    Go's [error] values: [errors.New(msg)] and rc4's [KeySizeError]. *)

Inductive error : Type :=
| errorString (msg : string)
| KeySizeError (k : Z).

(** A Go result pair [(v, err)] in which [v] is only used when [err]
    is nil. *)
Inductive result (A : Type) : Type :=
| Ok (a : A)
| Err (e : error).
Arguments Ok {A} a.
Arguments Err {A} e.

(** ** The primitives of Go's crypto packages *)

Module Crypto.

(** *** crypto/md5 (RFC 1321) *)

Definition add32 (a b : Z) : Z := wrap32 (a + b).
Definition not32 (a : Z) : Z := Z.lxor a 4294967295.
Definition rotl32 (x : Z) (s : Z) : Z :=
  Z.lor (wrap32 (Z.shiftl x s)) (Z.shiftr x (32 - s)).

Definition md5_K : list Z :=
  [0xd76aa478; 0xe8c7b756; 0x242070db; 0xc1bdceee;
   0xf57c0faf; 0x4787c62a; 0xa8304613; 0xfd469501;
   0x698098d8; 0x8b44f7af; 0xffff5bb1; 0x895cd7be;
   0x6b901122; 0xfd987193; 0xa679438e; 0x49b40821;
   0xf61e2562; 0xc040b340; 0x265e5a51; 0xe9b6c7aa;
   0xd62f105d; 0x02441453; 0xd8a1e681; 0xe7d3fbc8;
   0x21e1cde6; 0xc33707d6; 0xf4d50d87; 0x455a14ed;
   0xa9e3e905; 0xfcefa3f8; 0x676f02d9; 0x8d2a4c8a;
   0xfffa3942; 0x8771f681; 0x6d9d6122; 0xfde5380c;
   0xa4beea44; 0x4bdecfa9; 0xf6bb4b60; 0xbebfbc70;
   0x289b7ec6; 0xeaa127fa; 0xd4ef3085; 0x04881d05;
   0xd9d4d039; 0xe6db99e5; 0x1fa27cf8; 0xc4ac5665;
   0xf4292244; 0x432aff97; 0xab9423a7; 0xfc93a039;
   0x655b59c3; 0x8f0ccc92; 0xffeff47d; 0x85845dd1;
   0x6fa87e4f; 0xfe2ce6e0; 0xa3014314; 0x4e0811a1;
   0xf7537e82; 0xbd3af235; 0x2ad7d2bb; 0xeb86d391].

Definition md5_S : list Z :=
  [7; 12; 17; 22; 7; 12; 17; 22; 7; 12; 17; 22; 7; 12; 17; 22;
   5; 9; 14; 20; 5; 9; 14; 20; 5; 9; 14; 20; 5; 9; 14; 20;
   4; 11; 16; 23; 4; 11; 16; 23; 4; 11; 16; 23; 4; 11; 16; 23;
   6; 10; 15; 21; 6; 10; 15; 21; 6; 10; 15; 21; 6; 10; 15; 21].

Record md5_state := MkMd5 { md5_a : Z; md5_b : Z; md5_c : Z; md5_d : Z }.

Definition md5_init : md5_state :=
  MkMd5 0x67452301 0xefcdab89 0x98badcfe 0x10325476.

(** One of the 64 steps on the 16 words [m] of a block. *)
Definition md5_step (m : list Z) (st : md5_state) (i : nat) : md5_state :=
  let '(MkMd5 a b c d) := st in
  let f :=
    if (i <? 16)%nat then Z.lor (Z.land b c) (Z.land (not32 b) d)
    else if (i <? 32)%nat then Z.lor (Z.land d b) (Z.land (not32 d) c)
    else if (i <? 48)%nat then Z.lxor (Z.lxor b c) d
    else Z.lxor c (Z.lor b (not32 d)) in
  let g :=
    if (i <? 16)%nat then i
    else if (i <? 32)%nat then ((5 * i + 1) mod 16)%nat
    else if (i <? 48)%nat then ((3 * i + 5) mod 16)%nat
    else ((7 * i) mod 16)%nat in
  let t := add32 (add32 (add32 f a) (nth i md5_K 0)) (nth g m 0) in
  MkMd5 d (add32 b (rotl32 t (nth i md5_S 0))) b c.

(** The words of a 64-byte block. *)
Fixpoint words_of (n : nat) (blk : bytes) : list Z :=
  match n with
  | O => []
  | S n' => Uint32 (firstn 4 blk) :: words_of n' (skipn 4 blk)
  end.

Definition md5_block (st : md5_state) (blk : bytes) : md5_state :=
  let m := words_of 16 blk in
  let st' := fold_left (md5_step m) (seq 0 64) st in
  MkMd5 (add32 (md5_a st) (md5_a st')) (add32 (md5_b st) (md5_b st'))
        (add32 (md5_c st) (md5_c st')) (add32 (md5_d st) (md5_d st')).

(** All the 64-byte blocks of a padded message, [n] of them. *)
Fixpoint md5_blocks (n : nat) (st : md5_state) (msg : bytes) : md5_state :=
  match n with
  | O => st
  | S n' => md5_blocks n' (md5_block st (firstn 64 msg)) (skipn 64 msg)
  end.

Definition md5_pad (msg : bytes) : bytes :=
  let l := length msg in
  let z := ((119 - l mod 64) mod 64)%nat in
  msg ++ [128] ++ repeat 0 z ++ le64 (8 * Z.of_nat l).

Definition md5 (msg : bytes) : bytes :=
  let p := md5_pad msg in
  let st := md5_blocks (length p / 64) md5_init p in
  le32 (md5_a st) ++ le32 (md5_b st) ++ le32 (md5_c st) ++ le32 (md5_d st).

(** *** crypto/hmac over md5 (RFC 2104): [hmac.New(md5.New, key)],
    the [Write]s concatenated into [msg], then [Sum(nil)]. *)

Definition hmac_key (key : bytes) : bytes :=
  let k := if (64 <? length key)%nat then md5 key else key in
  k ++ repeat 0 (64 - length k).

Definition hmac_md5 (key msg : bytes) : bytes :=
  let k := hmac_key key in
  md5 (map (Z.lxor 0x5c) k ++ md5 (map (Z.lxor 0x36) k ++ msg)).

(** *** crypto/rc4 *)

Record Cipher := MkCipher { rc4_s : list Z; rc4_i : Z; rc4_j : Z }.

Definition set_nth (l : list Z) (i : Z) (v : Z) : list Z :=
  firstn (Z.to_nat i) l ++ v :: skipn (S (Z.to_nat i)) l.

Definition get_nth (l : list Z) (i : Z) : Z := nth (Z.to_nat i) l 0.

Definition swap (s : list Z) (i j : Z) : list Z :=
  let a := get_nth s i in
  let b := get_nth s j in
  set_nth (set_nth s i b) j a.

Definition ksa_step (key : bytes) (st : list Z * Z) (i : nat) : list Z * Z :=
  let '(s, j) := st in
  let j' := wrap8 (j + get_nth s (Z.of_nat i) + nth (i mod length key) key 0) in
  (swap s (Z.of_nat i) j', j').

(** [rc4.NewCipher]: a key of 1 to 256 bytes, else a [KeySizeError]. *)
Definition NewCipher (key : bytes) : result Cipher :=
  if ((length key <? 1) || (256 <? length key))%nat then Err (KeySizeError (len key))
  else
    let s0 := map Z.of_nat (seq 0 256) in
    let '(s, _) := fold_left (ksa_step key) (seq 0 256) (s0, 0) in
    Ok (MkCipher s 0 0).

(** [c.XORKeyStream(dst, src)] with [dst] of the length of [src]:
    the output and the advanced cipher. *)
Fixpoint XORKeyStream (c : Cipher) (src : bytes) : bytes * Cipher :=
  match src with
  | [] => ([], c)
  | x :: src' =>
      let i := wrap8 (rc4_i c + 1) in
      let j := wrap8 (rc4_j c + get_nth (rc4_s c) i) in
      let s := swap (rc4_s c) i j in
      let k := get_nth s (wrap8 (get_nth s i + get_nth s j)) in
      let '(out, c') := XORKeyStream (MkCipher s i j) src' in
      (Z.lxor x k :: out, c')
  end.

End Crypto.

Definition hex_digit (z : Z) : ascii :=
  ascii_of_N (Z.to_N (if z <? 10 then 48 + z else 87 + z)).

Fixpoint hex (b : bytes) : string :=
  match b with
  | [] => EmptyString
  | x :: b' => String (hex_digit (x / 16)) (String (hex_digit (x mod 16)) (hex b'))
  end.


(** ** Declarations of the package that provider.go uses *)

(** Modelled from the spec: the message-type constants are declared
    outside provider.go; the layouts of the three messages give them as
    messageType=1 (NEGOTIATE), 2 (CHALLENGE) and 3 (AUTHENTICATE). *)
Definition MessageTypeNtLmNegotiate : Z := 1.
Definition MessageTypeNtLmChallenge : Z := 2.
Definition MessageTypeNtLmAuthenticate : Z := 3.

(** The remaining constants are declared outside provider.go and their
    values are not fixed here: the signature and version blobs and the
    negotiate-flag masks. *)
Class Constants : Type := {
  Signature : bytes;
  ClientVersion : bytes;
  NegotiateUnicode : Z;
  NegotiateOEM : Z;
  RequestTarget : Z;
  NegotiateSign : Z;
  NegotiateNTLM : Z;
  NegotiateDomainSupplied : Z;
  NegotiateWorkstationSupplied : Z;
  NegotiateOEMDomainSupplied : Z;
  NegotiateOEMWorkstationSupplied : Z;
  NegotiateAlwaysSign : Z;
  NegotiateExtendedSecurity : Z;
  NegotiateTargetInfo : Z;
  NegotiateVersion : Z;
  Negotiate128 : Z;
  NegotiateKeyExch : Z;
  Negotiate56 : Z;
  DefaultNegotiateFlags : Z
}.

(** String helpers: the package's [ToUnicode], the encoder package's
    [StrToUTF16] and the standard library's [strings.ToUpper]. *)
Class Strings : Type := {
  ToUnicode : string -> bytes;
  StrToUTF16 : string -> bytes;
  ToUpper : string -> string
}.

(** Modelled from the spec: the types [AvPairs] and [TargetInformation]
    are declared outside provider.go; the target information is an
    ordered sequence of (type, value) pairs. *)
Definition AvPairs : Type := list (Z * bytes).
Definition TargetInformation : Type := list (Z * bytes).

(** Modelled from the spec: [sign] is defined outside provider.go.  It
    computes HMAC-MD5 over sequenceNumber ++ plaintext under the signing
    key, keeps the first 8 bytes, passes them through the stream cipher
    when key exchange was negotiated, and assembles
    version(4)=1 ++ checksum(8) ++ sequenceNumber(4) after [dst]; the
    sequence counter, a uint32, is then incremented.  The cipher sits
    behind a pointer: its advanced state is returned, and a nil handle
    that has to be used is a run-time panic ([None]). *)
Definition sign `{Constants} (dst : bytes) (negotiateFlags : Z)
    (handle : option Crypto.Cipher) (signingKey : bytes) (seqNum : Z)
    (msg : bytes) : option (bytes * Z * option Crypto.Cipher) :=
  let checksum := firstn 8 (Crypto.hmac_md5 signingKey (le32 seqNum ++ msg)) in
  let sealed :=
    if Z.land negotiateFlags NegotiateKeyExch =? 0 then Some (checksum, handle)
    else match handle with
         | None => None
         | Some c => let '(out, c') := Crypto.XORKeyStream c checksum in
                     Some (out, Some c')
         end in
  match sealed with
  | None => None
  | Some (checksum', handle') =>
      Some (dst ++ le32 1 ++ checksum' ++ le32 seqNum, wrap32 (seqNum + 1), handle')
  end.

(** Following the spec's words (section 7), not the code: the kind the
    design gives to each error the provider raises itself. *)
Inductive ErrorKind : Type :=
| MalformedMessage | ProtocolMismatch | CryptoFailure | SequenceError.

Definition spec_error_kind (e : error) : option ErrorKind :=
  match e with
  | KeySizeError _ => Some CryptoFailure
  | errorString msg =>
      if String.eqb msg "invalid challenge message length" then Some MalformedMessage
      else if String.eqb msg "invalid signature" then Some ProtocolMismatch
      else if String.eqb msg "invalid message type" then Some ProtocolMismatch
      else if String.eqb msg "invalid negotiate flags" then Some ProtocolMismatch
      else None
  end.

(** ** provider.go, the Unicode-only provider *)

Module Unicode.

Record NtlmProvider : Type := MkProvider {
  User : string;
  Password : string;
  Hash : bytes;
  Domain : string;
  Workstation : string;
  NegotiateFlags : Z;
  SessionBaseKey : bytes;
  KeyExchangeKey : bytes;
  RandomSessionKey : bytes;
  ExportedSessionKey : bytes;
  ClientSigningKey : bytes;
  ServerSigningKey : bytes;
  ServerHandle : option Crypto.Cipher;
  ClientHandle : option Crypto.Cipher;
  SequenceNumber : Z;
  ServerChallenge : bytes;
  ClientChallenge : bytes;
  NegotiateMessage : bytes;
  AuthenticateMessage : bytes;
  TargetInfo : option TargetInformation
}.

(** Assignments to single fields, [n.F = v]. *)
Definition set_NegotiateFlags (v : Z) (n : NtlmProvider) : NtlmProvider :=
  MkProvider (User n) (Password n) (Hash n) (Domain n) (Workstation n)
    v (SessionBaseKey n) (KeyExchangeKey n) (RandomSessionKey n)
    (ExportedSessionKey n) (ClientSigningKey n) (ServerSigningKey n)
    (ServerHandle n) (ClientHandle n) (SequenceNumber n) (ServerChallenge n)
    (ClientChallenge n) (NegotiateMessage n) (AuthenticateMessage n) (TargetInfo n).

Definition set_ClientSigningKey (v : bytes) (n : NtlmProvider) : NtlmProvider :=
  MkProvider (User n) (Password n) (Hash n) (Domain n) (Workstation n)
    (NegotiateFlags n) (SessionBaseKey n) (KeyExchangeKey n) (RandomSessionKey n)
    (ExportedSessionKey n) v (ServerSigningKey n)
    (ServerHandle n) (ClientHandle n) (SequenceNumber n) (ServerChallenge n)
    (ClientChallenge n) (NegotiateMessage n) (AuthenticateMessage n) (TargetInfo n).

Definition set_ServerSigningKey (v : bytes) (n : NtlmProvider) : NtlmProvider :=
  MkProvider (User n) (Password n) (Hash n) (Domain n) (Workstation n)
    (NegotiateFlags n) (SessionBaseKey n) (KeyExchangeKey n) (RandomSessionKey n)
    (ExportedSessionKey n) (ClientSigningKey n) v
    (ServerHandle n) (ClientHandle n) (SequenceNumber n) (ServerChallenge n)
    (ClientChallenge n) (NegotiateMessage n) (AuthenticateMessage n) (TargetInfo n).

Definition set_ServerHandle (v : option Crypto.Cipher) (n : NtlmProvider) : NtlmProvider :=
  MkProvider (User n) (Password n) (Hash n) (Domain n) (Workstation n)
    (NegotiateFlags n) (SessionBaseKey n) (KeyExchangeKey n) (RandomSessionKey n)
    (ExportedSessionKey n) (ClientSigningKey n) (ServerSigningKey n)
    v (ClientHandle n) (SequenceNumber n) (ServerChallenge n)
    (ClientChallenge n) (NegotiateMessage n) (AuthenticateMessage n) (TargetInfo n).

Definition set_ClientHandle (v : option Crypto.Cipher) (n : NtlmProvider) : NtlmProvider :=
  MkProvider (User n) (Password n) (Hash n) (Domain n) (Workstation n)
    (NegotiateFlags n) (SessionBaseKey n) (KeyExchangeKey n) (RandomSessionKey n)
    (ExportedSessionKey n) (ClientSigningKey n) (ServerSigningKey n)
    (ServerHandle n) v (SequenceNumber n) (ServerChallenge n)
    (ClientChallenge n) (NegotiateMessage n) (AuthenticateMessage n) (TargetInfo n).

Definition set_SequenceNumber (v : Z) (n : NtlmProvider) : NtlmProvider :=
  MkProvider (User n) (Password n) (Hash n) (Domain n) (Workstation n)
    (NegotiateFlags n) (SessionBaseKey n) (KeyExchangeKey n) (RandomSessionKey n)
    (ExportedSessionKey n) (ClientSigningKey n) (ServerSigningKey n)
    (ServerHandle n) (ClientHandle n) v (ServerChallenge n)
    (ClientChallenge n) (NegotiateMessage n) (AuthenticateMessage n) (TargetInfo n).

Definition set_ServerChallenge (v : bytes) (n : NtlmProvider) : NtlmProvider :=
  MkProvider (User n) (Password n) (Hash n) (Domain n) (Workstation n)
    (NegotiateFlags n) (SessionBaseKey n) (KeyExchangeKey n) (RandomSessionKey n)
    (ExportedSessionKey n) (ClientSigningKey n) (ServerSigningKey n)
    (ServerHandle n) (ClientHandle n) (SequenceNumber n) v
    (ClientChallenge n) (NegotiateMessage n) (AuthenticateMessage n) (TargetInfo n).

Definition set_NegotiateMessage (v : bytes) (n : NtlmProvider) : NtlmProvider :=
  MkProvider (User n) (Password n) (Hash n) (Domain n) (Workstation n)
    (NegotiateFlags n) (SessionBaseKey n) (KeyExchangeKey n) (RandomSessionKey n)
    (ExportedSessionKey n) (ClientSigningKey n) (ServerSigningKey n)
    (ServerHandle n) (ClientHandle n) (SequenceNumber n) (ServerChallenge n)
    (ClientChallenge n) v (AuthenticateMessage n) (TargetInfo n).

Definition set_AuthenticateMessage (v : bytes) (n : NtlmProvider) : NtlmProvider :=
  MkProvider (User n) (Password n) (Hash n) (Domain n) (Workstation n)
    (NegotiateFlags n) (SessionBaseKey n) (KeyExchangeKey n) (RandomSessionKey n)
    (ExportedSessionKey n) (ClientSigningKey n) (ServerSigningKey n)
    (ServerHandle n) (ClientHandle n) (SequenceNumber n) (ServerChallenge n)
    (ClientChallenge n) (NegotiateMessage n) v (TargetInfo n).

Definition set_TargetInfo (v : option TargetInformation) (n : NtlmProvider) : NtlmProvider :=
  MkProvider (User n) (Password n) (Hash n) (Domain n) (Workstation n)
    (NegotiateFlags n) (SessionBaseKey n) (KeyExchangeKey n) (RandomSessionKey n)
    (ExportedSessionKey n) (ClientSigningKey n) (ServerSigningKey n)
    (ServerHandle n) (ClientHandle n) (SequenceNumber n) (ServerChallenge n)
    (ClientChallenge n) (NegotiateMessage n) (AuthenticateMessage n) v.

(** The functions and methods of the package that provider.go calls and
    that are defined in its other files.  The two response builders are
    methods on the provider: they may read and write any of its fields.
    A pair result ([NewTargetInformation], [signKey]) is assigned to a
    field before its error is looked at. *)
Class Helpers : Type := {
  extractFields : bytes -> bytes -> result bytes;
  NewAvPairs : bytes -> result AvPairs;
  NewTargetInformation : AvPairs -> option TargetInformation * option error;
  NewLMChallengeResponse : NtlmProvider -> bytes * NtlmProvider;
  NewNtChallengeResponse : bytes -> NtlmProvider -> result bytes * NtlmProvider;
  signKey : bytes -> bytes -> Z -> bytes * option error;
  sealKey : bytes -> bytes -> Z -> result bytes
}.

(** A method body: it reads and writes the provider, and returns a
    value or an error; the writes made before an error stay. *)
Definition M (A : Type) : Type := NtlmProvider -> result A * NtlmProvider.

Definition ret {A} (a : A) : M A := fun n => (Ok a, n).
Definition fail {A} (e : error) : M A := fun n => (Err e, n).
Definition bind {A B} (m : M A) (k : A -> M B) : M B :=
  fun n => match m n with
           | (Ok a, n') => k a n'
           | (Err e, n') => (Err e, n')
           end.
Definition gets {A} (f : NtlmProvider -> A) : M A := fun n => (Ok (f n), n).
Definition modify (f : NtlmProvider -> NtlmProvider) : M unit := fun n => (Ok tt, f n).
Definition lift {A} (r : result A) : M A := fun n => (r, n).
Definition call {A} (f : NtlmProvider -> A * NtlmProvider) : M A :=
  fun n => let '(a, n') := f n in (Ok a, n').
Definition check (err : option error) : M unit :=
  match err with Some e => fail e | None => ret tt end.

Declare Scope go_scope.
Delimit Scope go_scope with go.
Notation "x <- m ;; k" := (bind m (fun x => k))
  (at level 61, m at next level, right associativity) : go_scope.
Notation "m ;;; k" := (bind m (fun _ => k))
  (at level 61, right associativity) : go_scope.

Section Provider.
Context `{Constants} `{Strings} `{Helpers}.
Open Scope go_scope.

(** The flags [InitSecContext] starts from when the caller left
    [NegotiateFlags] at zero. *)
Definition defaultFlags : Z :=
  Z.lor (Z.lor (Z.lor (Z.lor (Z.lor (Z.lor (Z.lor (Z.lor (Z.lor (Z.lor
    Negotiate56 Negotiate128) NegotiateKeyExch) NegotiateTargetInfo)
    NegotiateExtendedSecurity) NegotiateAlwaysSign) NegotiateNTLM) NegotiateSign)
    RequestTarget) NegotiateUnicode) NegotiateVersion.

(** [InitSecContext] generates the NEGOTIATE message. *)
Definition InitSecContext : M bytes := fun n =>
  let flags := if NegotiateFlags n =? 0 then defaultFlags else NegotiateFlags n in
  let payload := make 40 in
  (* 0-8: Signature *)
  let payload := copy payload 0 40 Signature in
  (* 8-12: MessageType *)
  let payload := PutUint32 payload 8 MessageTypeNtLmNegotiate in
  (* 12-16: NegotiateFlags *)
  let flags := if negb (is_empty (Domain n))
               then Z.lor flags NegotiateDomainSupplied else flags in
  let flags := if negb (is_empty (Workstation n))
               then Z.lor flags NegotiateWorkstationSupplied else flags in
  let n := set_NegotiateFlags flags n in
  let payload := PutUint32 payload 12 flags in
  (* 16-24: DomainNameFields *)
  let expectedLen := 40 in
  let toAppend : bytes := [] in
  let '(payload, toAppend, expectedLen) :=
    if negb (is_empty (Domain n)) then
      let uniStr := ToUnicode (Domain n) in
      let toAppend := toAppend ++ uniStr in
      let payload := PutUint16 payload 16 (len uniStr) in
      let payload := PutUint16 payload 18 (len uniStr) in
      let payload := PutUint32 payload 20 expectedLen in
      (payload, toAppend, expectedLen + len uniStr)
    else (payload, toAppend, expectedLen) in
  (* 24-32: WorkstationFields *)
  let '(payload, toAppend, expectedLen) :=
    if negb (is_empty (Workstation n)) then
      let uniStr := ToUnicode (Workstation n) in
      let toAppend := toAppend ++ uniStr in
      let payload := PutUint16 payload 24 (len uniStr) in
      let payload := PutUint16 payload 26 (len uniStr) in
      let payload := PutUint32 payload 28 expectedLen in
      (payload, toAppend, expectedLen + len uniStr)
    else (payload, toAppend, expectedLen) in
  (* 32-40: Version *)
  let payload := copy payload 32 40 ClientVersion in
  (* 40-: Payload *)
  let n := set_NegotiateMessage (payload ++ toAppend) n in
  (Ok (NegotiateMessage n), n).

(** The three writes of one field descriptor of the AUTHENTICATE header
    at [pos]: [uint16(len(v))] twice (len, maxlen) and [uint32(offset)]. *)
Definition putFields (msg : bytes) (pos : nat) (v : bytes) (offset : Z) : bytes :=
  let msg := PutUint16 msg pos (len v) in
  let msg := PutUint16 msg (pos + 2) (len v) in
  PutUint32 msg (pos + 4) offset.

(** [AcceptSecContext] checks the CHALLENGE message [sc] and builds the
    AUTHENTICATE message.  The two [hash.Write] calls cannot fail
    ([hash.Hash] never returns an error), so their error branches are
    left out. *)
Definition AcceptSecContext (sc : bytes) : M bytes :=
  if (length sc <? 48)%nat then
    fail (errorString "invalid challenge message length")
  else if negb (bytes_eqb (slice 0 8 sc) Signature) then
    fail (errorString "invalid signature")
  else if negb (Uint32 (slice 8 12 sc) =? MessageTypeNtLmChallenge) then
    fail (errorString "invalid message type")
  else
  (* 12-20: TargetNameFields *)
  targetName <- lift (extractFields (slice 12 20 sc) sc) ;;
  (* 20-24: NegotiateFlags *)
  let challengeFlags := Uint32 (slice 20 24 sc) in
  flags <- gets NegotiateFlags ;;
  if (Z.land (Z.land flags challengeFlags) RequestTarget =? 0)
     || (Z.land (Z.land flags challengeFlags) NegotiateTargetInfo =? 0) then
    fail (errorString "invalid negotiate flags")
  else
  (* 24-32: ServerChallenge *)
  modify (set_ServerChallenge (slice 24 32 sc)) ;;;
  (* 40-48: TargetInfoFields *)
  targetInfo <- lift (extractFields (slice 40 48 sc) sc) ;;
  avpairs <- lift (NewAvPairs targetInfo) ;;
  let '(ti, err) := NewTargetInformation avpairs in
  modify (set_TargetInfo ti) ;;;
  check err ;;;
  let payload : bytes := [] in
  let offset := 88 in
  let authenticateMessage := make 88 in
  (* 0-8: Signature *)
  let authenticateMessage := copy authenticateMessage 0 8 Signature in
  (* 8-12: MessageType *)
  let authenticateMessage := PutUint32 authenticateMessage 8 MessageTypeNtLmAuthenticate in
  (* 12-20: LmChallengeResponseFields *)
  lm <- call NewLMChallengeResponse ;;
  let authenticateMessage := putFields authenticateMessage 12 lm offset in
  let payload := payload ++ lm in
  let offset := offset + len lm in
  (* 20-28: NtChallengeResponseFields *)
  nt <- NewNtChallengeResponse targetName ;;
  let authenticateMessage := putFields authenticateMessage 20 nt offset in
  let payload := payload ++ nt in
  let offset := offset + len nt in
  (* 28-36: DomainNameFields *)
  domain <- gets (fun n => ToUnicode (ToUpper (Domain n))) ;;
  let authenticateMessage := putFields authenticateMessage 28 domain offset in
  let payload := payload ++ domain in
  let offset := offset + len domain in
  (* 36-44: UserNameFields *)
  user <- gets (fun n => ToUnicode (ToUpper (User n))) ;;
  let authenticateMessage := putFields authenticateMessage 36 user offset in
  let payload := payload ++ user in
  let offset := offset + len user in
  (* 44-52: WorkstationFields *)
  workstation <- gets (fun n => ToUnicode (ToUpper (Workstation n))) ;;
  let authenticateMessage := putFields authenticateMessage 44 workstation offset in
  let payload := payload ++ workstation in
  let offset := offset + len workstation in
  (* 52-60: EncryptedRandomSessionKeyFields *)
  randomSessionKey <- gets RandomSessionKey ;;
  let authenticateMessage := putFields authenticateMessage 52 randomSessionKey offset in
  let payload := payload ++ randomSessionKey in
  let offset := offset + len randomSessionKey in
  (* 60-64: NegotiateFlags *)
  flags <- gets NegotiateFlags ;;
  let authenticateMessage := PutUint32 authenticateMessage 60 flags in
  (* 64-72: Version *)
  let authenticateMessage := copy authenticateMessage 64 72 ClientVersion in
  (* 72-88: MIC, to overwrite later *)
  let authenticateMessage := copy authenticateMessage 72 88 (make 16) in
  (* 88-: Payload *)
  modify (set_AuthenticateMessage (authenticateMessage ++ payload)) ;;;
  (* hash := hmac.New(md5.New, n.ExportedSessionKey), written with
     n.NegotiateMessage and n.AuthenticateMessage;
     hash.Sum(b) appends the digest to b *)
  key <- gets ExportedSessionKey ;;
  written <- gets (fun n => NegotiateMessage n ++ AuthenticateMessage n) ;;
  let sum := slice 72 88 authenticateMessage ++ Crypto.hmac_md5 key written in
  modify (fun n => set_AuthenticateMessage (copy (AuthenticateMessage n) 72 88 sum) n) ;;;
  (* the session keys *)
  flags <- gets NegotiateFlags ;;
  let '(k, err) := signKey key
      (bytes_of_string "session key to server-to-client signing key magic constant"
         ++ [0]) flags in
  modify (set_ServerSigningKey k) ;;;
  check err ;;;
  key <- gets ExportedSessionKey ;;
  flags <- gets NegotiateFlags ;;
  let '(k, err) := signKey key
      (bytes_of_string "session key to client-to-server signing key magic constant"
         ++ [0]) flags in
  modify (set_ClientSigningKey k) ;;;
  check err ;;;
  key <- gets ExportedSessionKey ;;
  flags <- gets NegotiateFlags ;;
  sealedClientKey <- lift (sealKey key
      (bytes_of_string "session key to client-to-server sealing key magic constant"
         ++ [0]) flags) ;;
  sealedServerKey <- lift (sealKey key
      (bytes_of_string "session key to server-to-client sealing key magic constant"
         ++ [0]) flags) ;;
  match Crypto.NewCipher sealedClientKey with
  | Err e => modify (set_ClientHandle None) ;;; fail e
  | Ok c =>
  modify (set_ClientHandle (Some c)) ;;;
  match Crypto.NewCipher sealedServerKey with
  | Err e => modify (set_ServerHandle None) ;;; fail e
  | Ok c =>
  modify (set_ServerHandle (Some c)) ;;;
  gets AuthenticateMessage
  end end.

(** [GetMIC] signs [bs] with the client keys.  It returns only a byte
    slice; [None] stands for the panic of [sign] on a nil handle. *)
Definition GetMIC (bs : bytes) (n : NtlmProvider) : option (bytes * NtlmProvider) :=
  if Z.land (NegotiateFlags n) NegotiateSign =? 0 then Some ([], n)
  else
    match sign [] (NegotiateFlags n) (ClientHandle n) (ClientSigningKey n)
               (SequenceNumber n) bs with
    | None => None
    | Some (mic, seqNum, handle) =>
        Some (mic, set_SequenceNumber seqNum (set_ClientHandle handle n))
    end.

(** [SessionKey] returns the established session key. *)
Definition SessionKey (n : NtlmProvider) : bytes := ExportedSessionKey n.

End Provider.
End Unicode.

(** ** provider.go, the provider with the OEM mode *)

Module Oem.

Record NtlmProvider : Type := MkProvider {
  User : string;
  Password : string;
  Hash : bytes;
  Domain : string;
  Workstation : string;
  IsOEM : bool;
  TargetName : bytes;
  NegotiateFlags : Z;
  SessionBaseKey : bytes;
  KeyExchangeKey : bytes;
  RandomSessionKey : bytes;
  ExportedSessionKey : bytes;
  ClientSigningKey : bytes;
  ServerSigningKey : bytes;
  ServerHandle : option Crypto.Cipher;
  ClientHandle : option Crypto.Cipher;
  SequenceNumber : Z;
  ServerChallenge : bytes;
  ClientChallenge : bytes;
  NegotiateMessage : bytes;
  AuthenticateMessage : bytes;
  TargetInfo : option TargetInformation
}.

Definition set_NegotiateFlags (v : Z) (n : NtlmProvider) : NtlmProvider :=
  MkProvider (User n) (Password n) (Hash n) (Domain n) (Workstation n)
    (IsOEM n) (TargetName n)
    v (SessionBaseKey n) (KeyExchangeKey n) (RandomSessionKey n)
    (ExportedSessionKey n) (ClientSigningKey n) (ServerSigningKey n)
    (ServerHandle n) (ClientHandle n) (SequenceNumber n) (ServerChallenge n)
    (ClientChallenge n) (NegotiateMessage n) (AuthenticateMessage n) (TargetInfo n).

Definition set_ClientHandle (v : option Crypto.Cipher) (n : NtlmProvider) : NtlmProvider :=
  MkProvider (User n) (Password n) (Hash n) (Domain n) (Workstation n)
    (IsOEM n) (TargetName n)
    (NegotiateFlags n) (SessionBaseKey n) (KeyExchangeKey n) (RandomSessionKey n)
    (ExportedSessionKey n) (ClientSigningKey n) (ServerSigningKey n)
    (ServerHandle n) v (SequenceNumber n) (ServerChallenge n)
    (ClientChallenge n) (NegotiateMessage n) (AuthenticateMessage n) (TargetInfo n).

Definition set_SequenceNumber (v : Z) (n : NtlmProvider) : NtlmProvider :=
  MkProvider (User n) (Password n) (Hash n) (Domain n) (Workstation n)
    (IsOEM n) (TargetName n)
    (NegotiateFlags n) (SessionBaseKey n) (KeyExchangeKey n) (RandomSessionKey n)
    (ExportedSessionKey n) (ClientSigningKey n) (ServerSigningKey n)
    (ServerHandle n) (ClientHandle n) v (ServerChallenge n)
    (ClientChallenge n) (NegotiateMessage n) (AuthenticateMessage n) (TargetInfo n).

Definition set_NegotiateMessage (v : bytes) (n : NtlmProvider) : NtlmProvider :=
  MkProvider (User n) (Password n) (Hash n) (Domain n) (Workstation n)
    (IsOEM n) (TargetName n)
    (NegotiateFlags n) (SessionBaseKey n) (KeyExchangeKey n) (RandomSessionKey n)
    (ExportedSessionKey n) (ClientSigningKey n) (ServerSigningKey n)
    (ServerHandle n) (ClientHandle n) (SequenceNumber n) (ServerChallenge n)
    (ClientChallenge n) v (AuthenticateMessage n) (TargetInfo n).

(** The two methods [AcceptSecContext] delegates to, defined in other
    files of the package. *)
Class Helpers : Type := {
  ValidateChallengeMessage : bytes -> NtlmProvider -> option error * NtlmProvider;
  GenerateAuthenticateMessage : NtlmProvider -> result bytes * NtlmProvider
}.

Section Provider.
Context `{Constants} `{Strings} `{Helpers}.

(** [InitSecContext] generates the NEGOTIATE message. *)
Definition InitSecContext (n : NtlmProvider) : result bytes * NtlmProvider :=
  let n := if NegotiateFlags n =? 0
           then set_NegotiateFlags DefaultNegotiateFlags n else n in
  let payload := make 40 in
  (* 0-8: Signature *)
  let payload := copy payload 0 40 Signature in
  (* 8-12: MessageType *)
  let payload := PutUint32 payload 8 MessageTypeNtLmNegotiate in
  (* 12-16: NegotiateFlags *)
  let n :=
    if IsOEM n then
      let n := set_NegotiateFlags (Z.lor (NegotiateFlags n) NegotiateOEM) n in
      let n := if negb (is_empty (Domain n))
               then set_NegotiateFlags
                      (Z.lor (NegotiateFlags n) NegotiateOEMDomainSupplied) n
               else n in
      if negb (is_empty (Workstation n))
      then set_NegotiateFlags
             (Z.lor (NegotiateFlags n) NegotiateOEMWorkstationSupplied) n
      else n
    else n in
  let payload := PutUint32 payload 12 (NegotiateFlags n) in
  (* 16-24: DomainNameFields *)
  let expectedLen := 40 in
  let toAppend : bytes := [] in
  let '(payload, toAppend, expectedLen) :=
    if negb (is_empty (Domain n)) && IsOEM n then
      let uniStr := StrToUTF16 (Domain n) in
      let toAppend := toAppend ++ uniStr in
      let payload := PutUint16 payload 16 (len uniStr) in
      let payload := PutUint16 payload 18 (len uniStr) in
      let payload := PutUint32 payload 20 expectedLen in
      (payload, toAppend, expectedLen + len uniStr)
    else (payload, toAppend, expectedLen) in
  (* 24-32: WorkstationFields *)
  let '(payload, toAppend, expectedLen) :=
    if negb (is_empty (Workstation n)) && IsOEM n then
      let uniStr := StrToUTF16 (Workstation n) in
      let toAppend := toAppend ++ uniStr in
      let payload := PutUint16 payload 24 (len uniStr) in
      let payload := PutUint16 payload 26 (len uniStr) in
      let payload := PutUint32 payload 28 expectedLen in
      (payload, toAppend, expectedLen + len uniStr)
    else (payload, toAppend, expectedLen) in
  (* 32-40: Version *)
  let payload := copy payload 32 40 ClientVersion in
  (* 40-: Payload *)
  let n := set_NegotiateMessage (payload ++ toAppend) n in
  (Ok (NegotiateMessage n), n).

(** [AcceptSecContext] validates the CHALLENGE message and generates
    the AUTHENTICATE message. *)
Definition AcceptSecContext (sc : bytes) (n : NtlmProvider)
    : result bytes * NtlmProvider :=
  match ValidateChallengeMessage sc n with
  | (Some err, n') => (Err err, n')
  | (None, n') => GenerateAuthenticateMessage n'
  end.

(** [GetMIC] signs [bs] with the client keys; [None] stands for the
    panic of [sign] on a nil handle. *)
Definition GetMIC (bs : bytes) (n : NtlmProvider) : option (bytes * NtlmProvider) :=
  if Z.land (NegotiateFlags n) NegotiateSign =? 0 then Some ([], n)
  else
    match sign [] (NegotiateFlags n) (ClientHandle n) (ClientSigningKey n)
               (SequenceNumber n) bs with
    | None => None
    | Some (mic, seqNum, handle) =>
        Some (mic, set_SequenceNumber seqNum (set_ClientHandle handle n))
    end.

(** [SessionKey] returns the established session key. *)
Definition SessionKey (n : NtlmProvider) : bytes := ExportedSessionKey n.

End Provider.
End Oem.

(** ** Clients of the provider *)

(** A caller signing the messages [msgs] one after the other on the
    same session: the signatures in order and the final session. *)
Fixpoint GetMIC_all `{Constants} (msgs : list bytes) (n : Unicode.NtlmProvider)
    : option (list bytes * Unicode.NtlmProvider) :=
  match msgs with
  | [] => Some ([], n)
  | bs :: rest =>
      match Unicode.GetMIC bs n with
      | None => None
      | Some (mic, n') =>
          match GetMIC_all rest n' with
          | None => None
          | Some (mics, n'') => Some (mic :: mics, n'')
          end
      end
  end.

(** The sequence number carried by a 16-byte signature record
    (bytes 12-16). *)
Definition signature_seq (sig : bytes) : Z := Uint32 (slice 12 16 sig).

(** The session can sign: the cipher that [sign] uses under key
    exchange exists. *)
Definition can_sign `{Constants} (n : Unicode.NtlmProvider) : Prop :=
  Z.land (Unicode.NegotiateFlags n) NegotiateKeyExch = 0
  \/ Unicode.ClientHandle n <> None.

(** What a peer reads through a field descriptor
    [(len:u16, maxlen:u16, offset:u32)] stored at [pos] in [msg]. *)
Definition field_len (msg : bytes) (pos : nat) : Z :=
  Uint16 (slice pos (pos + 2) msg).
Definition field_maxlen (msg : bytes) (pos : nat) : Z :=
  Uint16 (slice (pos + 2) (pos + 4) msg).
Definition field_offset (msg : bytes) (pos : nat) : Z :=
  Uint32 (slice (pos + 4) (pos + 8) msg).

(** The 88-byte header of the AUTHENTICATE message as
    [Unicode.AcceptSecContext] fills it from the responses, the encoded
    names, the encrypted session key and the flags, with the MIC field
    (72-88) zeroed. *)
Definition authenticate_header `{Constants}
    (lm nt domain user workstation randomSessionKey : bytes) (flags : Z) : bytes :=
  let m := make 88 in
  let m := copy m 0 8 Signature in
  let m := PutUint32 m 8 MessageTypeNtLmAuthenticate in
  let m := Unicode.putFields m 12 lm 88 in
  let m := Unicode.putFields m 20 nt (88 + len lm) in
  let m := Unicode.putFields m 28 domain (88 + len lm + len nt) in
  let m := Unicode.putFields m 36 user (88 + len lm + len nt + len domain) in
  let m := Unicode.putFields m 44 workstation
             (88 + len lm + len nt + len domain + len user) in
  let m := Unicode.putFields m 52 randomSessionKey
             (88 + len lm + len nt + len domain + len user + len workstation) in
  let m := PutUint32 m 60 flags in
  let m := copy m 64 72 ClientVersion in
  copy m 72 88 (make 16).

(** The identity inputs of a session. *)
Definition identity (n : Unicode.NtlmProvider) : string * string * string :=
  (Unicode.Domain n, Unicode.User n, Unicode.Workstation n).

(** The response builders leave the identity inputs alone. *)
Definition preserves_identity `{Unicode.Helpers} : Prop :=
  (forall n, identity (snd (Unicode.NewLMChallengeResponse n)) = identity n)
  /\ (forall t n, identity (snd (Unicode.NewNtChallengeResponse t n)) = identity n).

(** The flags the caller asked for, in the words of the design: the
    flags set in NegotiateFlags before the call, or the default set
    when they were left at zero. *)
Definition requested_flags `{Constants} (n : Unicode.NtlmProvider) : Z :=
  if Unicode.NegotiateFlags n =? 0 then Unicode.defaultFlags
  else Unicode.NegotiateFlags n.

Definition oem_requested_flags `{Constants} (n : Oem.NtlmProvider) : Z :=
  if Oem.NegotiateFlags n =? 0 then DefaultNegotiateFlags
  else Oem.NegotiateFlags n.

(** The bits [Unicode.InitSecContext] adds on its own: one for a
    non-empty domain and one for a non-empty workstation. *)
Definition supplied_bits `{Constants} (n : Unicode.NtlmProvider) : Z :=
  Z.lor (if is_empty (Unicode.Domain n) then 0 else NegotiateDomainSupplied)
        (if is_empty (Unicode.Workstation n) then 0
         else NegotiateWorkstationSupplied).

(** The bits [Oem.InitSecContext] adds on its own in OEM mode. *)
Definition oem_bits `{Constants} (n : Oem.NtlmProvider) : Z :=
  if Oem.IsOEM n then
    Z.lor NegotiateOEM
      (Z.lor (if is_empty (Oem.Domain n) then 0 else NegotiateOEMDomainSupplied)
             (if is_empty (Oem.Workstation n) then 0
              else NegotiateOEMWorkstationSupplied))
  else 0.

(** The flags the two providers negotiate. *)
Definition negotiated_flags `{Constants} (n : Unicode.NtlmProvider) : Z :=
  Z.lor (requested_flags n) (supplied_bits n).

Definition oem_negotiated_flags `{Constants} (n : Oem.NtlmProvider) : Z :=
  Z.lor (oem_requested_flags n) (oem_bits n).

(** ** Layouts of the emitted messages *)

(** The three values of the field descriptor stored at [pos]. *)
Definition read_descriptor (msg : bytes) (pos : nat) : Z * Z * Z :=
  (field_len msg pos, field_maxlen msg pos, field_offset msg pos).

(** The descriptor the builders write for a value [v] placed at
    [offset]; a field that is left out keeps the zero bytes of
    [make]. *)
Definition descriptor_of (present : bool) (v : bytes) (offset : Z) : Z * Z * Z :=
  if present then (wrap16 (len v), wrap16 (len v), wrap32 offset) else (0, 0, 0).

(** The payload bytes of a name in the NEGOTIATE message of the
    Unicode provider: sent when the name is not empty. *)
Definition supplied_name `{Strings} (s : string) : bytes :=
  if is_empty s then [] else ToUnicode s.

(** The same in the OEM provider: sent when the name is not empty and
    the provider is in OEM mode. *)
Definition oem_supplied_name `{Strings} (oem : bool) (s : string) : bytes :=
  if negb (is_empty s) && oem then StrToUTF16 s else [].

(** The magic constants of the four session keys, as
    [Unicode.AcceptSecContext] passes them to [signKey] and [sealKey]. *)
Definition magic_server_signing : bytes :=
  bytes_of_string "session key to server-to-client signing key magic constant" ++ [0].
Definition magic_client_signing : bytes :=
  bytes_of_string "session key to client-to-server signing key magic constant" ++ [0].
Definition magic_client_sealing : bytes :=
  bytes_of_string "session key to client-to-server sealing key magic constant" ++ [0].
Definition magic_server_sealing : bytes :=
  bytes_of_string "session key to server-to-client sealing key magic constant" ++ [0].

(** The 40-byte header of the NEGOTIATE message as [InitSecContext]
    fills it: [domain] and [workstation] are the encoded names whose
    descriptors are written, [None] for a name that is left out. *)
Definition negotiate_header `{Constants} (flags : Z)
    (domain workstation : option bytes) : bytes :=
  let p := make 40 in
  let p := copy p 0 40 Signature in
  let p := PutUint32 p 8 MessageTypeNtLmNegotiate in
  let p := PutUint32 p 12 flags in
  let '(p, expectedLen) :=
    match domain with
    | Some d =>
        (PutUint32 (PutUint16 (PutUint16 p 16 (len d)) 18 (len d)) 20 40, 40 + len d)
    | None => (p, 40)
    end in
  let p :=
    match workstation with
    | Some w => PutUint32 (PutUint16 (PutUint16 p 24 (len w)) 26 (len w)) 28 expectedLen
    | None => p
    end in
  copy p 32 40 ClientVersion.

(** The encoded name whose descriptor the Unicode provider writes. *)
Definition described_name `{Strings} (s : string) : option bytes :=
  if is_empty s then None else Some (ToUnicode s).

Definition oem_described_name `{Strings} (oem : bool) (s : string) : option bytes :=
  if negb (is_empty s) && oem then Some (StrToUTF16 s) else None.

(** Whether a name is described, and its bytes (none for a name left
    out). *)
Definition is_described (v : option bytes) : bool :=
  match v with Some _ => true | None => false end.


Definition name_bytes (v : option bytes) : bytes :=
  match v with Some b => b | None => [] end.

(** The session a successful [Unicode.AcceptSecContext] leaves, from
    the session [n2] the response builders returned. *)
Definition accepted_session (out ssk csk : bytes) (cc cs : Crypto.Cipher)
    (n2 : Unicode.NtlmProvider) : Unicode.NtlmProvider :=
  Unicode.set_ServerHandle (Some cs)
    (Unicode.set_ClientHandle (Some cc)
       (Unicode.set_ClientSigningKey csk
          (Unicode.set_ServerSigningKey ssk
             (Unicode.set_AuthenticateMessage out n2)))).

(** What the CHALLENGE must pass before anything is built. *)
Definition challenge_checks `{Constants} `{Unicode.Helpers} (sc : bytes) (n : Unicode.NtlmProvider)
    (targetName : bytes) : Prop :=
  (48 <= length sc)%nat
  /\ slice 0 8 sc = Signature
  /\ Uint32 (slice 8 12 sc) = 2
  /\ Unicode.extractFields (slice 12 20 sc) sc = Ok targetName
  /\ Z.land (Z.land (Unicode.NegotiateFlags n) (Uint32 (slice 20 24 sc)))
       RequestTarget <> 0
  /\ Z.land (Z.land (Unicode.NegotiateFlags n) (Uint32 (slice 20 24 sc)))
       NegotiateTargetInfo <> 0.

(** ** A reference environment

    One admissible choice for everything provider.go takes from
    elsewhere, on which the provider can be run: the constants with the
    values of the NTLM protocol, the string helpers on ASCII input, and
    the helper functions as the design describes them, with the random
    client challenge, the timestamp and the random session key fixed. *)

Module Reference.

#[export] Instance constants : Constants := {|
  Signature := bytes_of_string "NTLMSSP" ++ [0];
  ClientVersion := [10; 0; 0x61; 0x4a; 0; 0; 0; 15];
  NegotiateUnicode := 0x1;
  NegotiateOEM := 0x2;
  RequestTarget := 0x4;
  NegotiateSign := 0x10;
  NegotiateNTLM := 0x200;
  NegotiateDomainSupplied := 0x1000;
  NegotiateWorkstationSupplied := 0x2000;
  NegotiateOEMDomainSupplied := 0x1000;
  NegotiateOEMWorkstationSupplied := 0x2000;
  NegotiateAlwaysSign := 0x8000;
  NegotiateExtendedSecurity := 0x80000;
  NegotiateTargetInfo := 0x800000;
  NegotiateVersion := 0x2000000;
  Negotiate128 := 0x20000000;
  NegotiateKeyExch := 0x40000000;
  Negotiate56 := 0x80000000;
  DefaultNegotiateFlags := 0xe2888215
|}.

Definition upper_ascii (c : ascii) : ascii :=
  let k := N_of_ascii c in
  if ((97 <=? k) && (k <=? 122))%N then ascii_of_N (k - 32) else c.

Fixpoint to_upper (s : string) : string :=
  match s with
  | EmptyString => EmptyString
  | String c s' => String (upper_ascii c) (to_upper s')
  end.

Fixpoint utf16le (s : string) : bytes :=
  match s with
  | EmptyString => []
  | String c s' => Z.of_N (N_of_ascii c) :: 0 :: utf16le s'
  end.

#[export] Instance strings : Strings := {|
  ToUnicode := utf16le;
  StrToUTF16 := utf16le;
  ToUpper := to_upper
|}.

(** Modelled from the spec: [extractFields] decodes a field descriptor
    [(len:u16, maxlen:u16, offset:u32)] and fails unless
    offset+len <= bufferLength. *)
Definition extractFields (fields buf : bytes) : result bytes :=
  let l := Uint16 (slice 0 2 fields) in
  let off := Uint32 (slice 4 8 fields) in
  if off + l <=? len buf
  then Ok (slice (Z.to_nat off) (Z.to_nat (off + l)) buf)
  else Err (errorString "invalid field bounds").

(** Modelled from the spec: [NewAvPairs] reads entries
    type(2) length(2) value(length) up to the zero-type, zero-length
    entry, and fails when a declared length would read past the end. *)
Fixpoint parseAvPairs (fuel : nat) (b : bytes) : result AvPairs :=
  match fuel with
  | O => Ok []
  | S fuel' =>
      if (length b <? 4)%nat then Ok []
      else
        let t := Uint16 (slice 0 2 b) in
        let l := Uint16 (slice 2 4 b) in
        if (t =? 0) && (l =? 0) then Ok []
        else if len b <? 4 + l then Err (errorString "invalid av pair length")
        else
          match parseAvPairs fuel' (skipn (4 + Z.to_nat l) b) with
          | Ok ps => Ok ((t, slice 4 (4 + Z.to_nat l) b) :: ps)
          | Err e => Err e
          end
  end.

Definition NewAvPairs (b : bytes) : result AvPairs := parseAvPairs (length b) b.

Fixpoint serializeAvPairs (ps : AvPairs) : bytes :=
  match ps with
  | [] => le16 0 ++ le16 0
  | (t, v) :: ps' => le16 t ++ le16 (len v) ++ v ++ serializeAvPairs ps'
  end.

Definition clientChallenge : bytes := [0xaa; 0xaa; 0xaa; 0xaa; 0xaa; 0xaa; 0xaa; 0xaa].
Definition randomSessionKey : bytes := repeat 0x55 16.

(** Modelled from the spec: the LM response of an NTLMv2 exchange, a
    fixed placeholder of 24 zero bytes. *)
Definition NewLMChallengeResponse (n : Unicode.NtlmProvider)
    : bytes * Unicode.NtlmProvider :=
  (repeat 0 24, n).

(** Modelled from the spec: the NTLMv2 response from a precomputed NTLM
    hash.  NTLMv2 hash = HMAC-MD5(hash, UTF16LE(upper(user) + domain));
    response = HMAC-MD5(v2 hash, serverChallenge ++ temp) ++ temp; the
    session base key is the HMAC of the response's HMAC; the
    key-exchange key is the session base key; with key exchange the
    exported session key is a fresh key, sent RC4-encrypted under the
    key-exchange key. *)
Definition NewNtChallengeResponse (targetName : bytes) (n : Unicode.NtlmProvider)
    : result bytes * Unicode.NtlmProvider :=
  match Unicode.Hash n, Unicode.TargetInfo n with
  | [], _ => (Err (errorString "no credentials"), n)
  | _, None => (Err (errorString "no target information"), n)
  | h, Some ti =>
      let v2 := Crypto.hmac_md5 h
                  (utf16le (to_upper (Unicode.User n) ++ Unicode.Domain n)) in
      let temp := [1; 1; 0; 0; 0; 0; 0; 0] ++ repeat 0 8 ++ clientChallenge
                    ++ [0; 0; 0; 0] ++ serializeAvPairs ti ++ [0; 0; 0; 0] in
      let proof := Crypto.hmac_md5 v2 (Unicode.ServerChallenge n ++ temp) in
      let base := Crypto.hmac_md5 v2 proof in
      let keyExch := negb (Z.land (Unicode.NegotiateFlags n) NegotiateKeyExch =? 0) in
      let exported := if keyExch then randomSessionKey else base in
      let encrypted :=
        if keyExch then
          match Crypto.NewCipher base with
          | Ok c => fst (Crypto.XORKeyStream c exported)
          | Err _ => []
          end
        else [] in
      (Ok (proof ++ temp),
       Unicode.MkProvider (Unicode.User n) (Unicode.Password n) (Unicode.Hash n)
         (Unicode.Domain n) (Unicode.Workstation n) (Unicode.NegotiateFlags n)
         base base encrypted exported
         (Unicode.ClientSigningKey n) (Unicode.ServerSigningKey n)
         (Unicode.ServerHandle n) (Unicode.ClientHandle n)
         (Unicode.SequenceNumber n) (Unicode.ServerChallenge n)
         clientChallenge (Unicode.NegotiateMessage n)
         (Unicode.AuthenticateMessage n) (Unicode.TargetInfo n))
  end.

(** Modelled from the spec: signing key = MD5(exportedSessionKey ++ magic). *)
Definition signKey (key magic : bytes) (flags : Z) : bytes * option error :=
  (Crypto.md5 (key ++ magic), None).

(** Modelled from the spec: sealing key = MD5(exportedSessionKey ++ magic),
    truncated to 7 or 5 bytes when 128-bit sealing was not negotiated. *)
Definition sealKey (key magic : bytes) (flags : Z) : result bytes :=
  let k := Crypto.md5 (key ++ magic) in
  if negb (Z.land flags Negotiate128 =? 0) then Ok k
  else if negb (Z.land flags Negotiate56 =? 0) then Ok (firstn 7 k)
  else Ok (firstn 5 k).

#[export] Instance helpers : Unicode.Helpers := {|
  Unicode.extractFields := extractFields;
  Unicode.NewAvPairs := NewAvPairs;
  Unicode.NewTargetInformation := fun ps => (Some ps, None);
  Unicode.NewLMChallengeResponse := NewLMChallengeResponse;
  Unicode.NewNtChallengeResponse := NewNtChallengeResponse;
  Unicode.signKey := signKey;
  Unicode.sealKey := sealKey
|}.

(** A provider as a caller creates it: a struct literal with the
    identity inputs and an NTLM hash, every other field at its zero
    value. *)
Definition client : Unicode.NtlmProvider :=
  Unicode.MkProvider "User" "" (repeat 0x11 16) "Domain" "COMPUTER" 0
    [] [] [] [] [] [] None None 0 [] [] [] [] None.

(** The same caller with no domain, no workstation and flags of its
    own choice: signing without key exchange. *)
Definition signer : Unicode.NtlmProvider :=
  Unicode.MkProvider "User" "" (repeat 0x11 16) "" "" 0x00880215
    [] [] [] [] [] [] None None 0 [] [] [] [] None.

Definition oem_client : Oem.NtlmProvider :=
  Oem.MkProvider "User" "" (repeat 0x11 16) "Domain" "COMPUTER" true [] 0x1
    [] [] [] [] [] [] None None 0 [] [] [] [] None.

Definition targetInfoBytes : bytes :=
  le16 2 ++ le16 6 ++ utf16le "DOM" ++ le16 1 ++ le16 6 ++ utf16le "SRV"
    ++ le16 0 ++ le16 0.

(** A CHALLENGE message from a server: target name "DOM" at offset 56,
    the flags [flags], server challenge 01 23 45 67 89 ab cd ef and the
    target information after the target name. *)
Definition challenge_with (flags : Z) : bytes :=
  (bytes_of_string "NTLMSSP" ++ [0]) ++ le32 2
    ++ le16 6 ++ le16 6 ++ le32 56
    ++ le32 flags
    ++ [0x01; 0x23; 0x45; 0x67; 0x89; 0xab; 0xcd; 0xef]
    ++ repeat 0 8
    ++ le16 (len targetInfoBytes) ++ le16 (len targetInfoBytes) ++ le32 62
    ++ [10; 0; 0x61; 0x4a; 0; 0; 0; 15]
    ++ utf16le "DOM" ++ targetInfoBytes.

Definition challenge : bytes := challenge_with 0xe2898215.

(** The sessions after InitSecContext, and after AcceptSecContext on
    [challenge]. *)
Definition negotiated : Unicode.NtlmProvider :=
  snd (Unicode.InitSecContext client).
Definition established : Unicode.NtlmProvider :=
  snd (Unicode.AcceptSecContext challenge negotiated).
Definition signer_negotiated : Unicode.NtlmProvider :=
  snd (Unicode.InitSecContext signer).
Definition signer_established : Unicode.NtlmProvider :=
  snd (Unicode.AcceptSecContext challenge signer_negotiated).

(** 2^32 + 1 empty messages to sign. *)
Definition many_messages : list bytes := repeat [] (Z.to_nat 4294967297).

(** The CHALLENGE with the offset of its target information pointing
    outside the buffer, and the one with a target-name offset
    outside the buffer. *)
Definition challenge_bad_info : bytes := PutUint32 challenge 44 4096.
Definition challenge_bad_name : bytes := PutUint32 challenge 16 4096.

(** The CHALLENGE with the right length and a wrong signature and
    message type. *)
Definition challenge_bad_header : bytes :=
  PutUint32 (copy challenge 0 8 (bytes_of_string "NTLMSSQ" ++ [0])) 8 7.

(** A provider of the OEM revision outside OEM mode. *)
Definition oem_off_client : Oem.NtlmProvider :=
  Oem.MkProvider "User" "" (repeat 0x11 16) "Domain" "COMPUTER" false [] 0
    [] [] [] [] [] [] None None 0 [] [] [] [] None.

(** The CHALLENGE with the right signature and message type 7. *)
Definition challenge_bad_type : bytes := PutUint32 challenge 8 7.

(** The helpers with a [NewTargetInformation] that refuses every
    target information, returning no value with its error. *)
Definition rejecting_helpers : Unicode.Helpers := {|
  Unicode.extractFields := extractFields;
  Unicode.NewAvPairs := NewAvPairs;
  Unicode.NewTargetInformation :=
    fun _ => (None, Some (errorString "invalid target information"));
  Unicode.NewLMChallengeResponse := NewLMChallengeResponse;
  Unicode.NewNtChallengeResponse := NewNtChallengeResponse;
  Unicode.signKey := signKey;
  Unicode.sealKey := sealKey
|}.

End Reference.

(** * Properties *)

(** ** Test vectors of the primitives *)

(** RFC 1321, appendix A.5. *)
Example md5_empty : hex (Crypto.md5 []) = "d41d8cd98f00b204e9800998ecf8427e"%string.
Proof. vm_compute. reflexivity. Qed.

Example md5_abc :
  hex (Crypto.md5 (bytes_of_string "abc")) = "900150983cd24fb0d6963f7d28e17f72"%string.
Proof. vm_compute. reflexivity. Qed.

Example md5_long :
  hex (Crypto.md5 (bytes_of_string
    "12345678901234567890123456789012345678901234567890123456789012345678901234567890"))
  = "57edf4a22be3c955ac49da2e2107b67a"%string.
Proof. vm_compute. reflexivity. Qed.

(** RFC 2202, test cases 1 and 2 for HMAC-MD5. *)
Example hmac_md5_rfc2202_1 :
  hex (Crypto.hmac_md5 (repeat 0x0b 16) (bytes_of_string "Hi There"))
  = "9294727a3638bb1c13f48ef8158bfc9d"%string.
Proof. vm_compute. reflexivity. Qed.

Example hmac_md5_rfc2202_2 :
  hex (Crypto.hmac_md5 (bytes_of_string "Jefe")
         (bytes_of_string "what do ya want for nothing?"))
  = "750c783e6ab0b503eaa86e310a5db738"%string.
Proof. vm_compute. reflexivity. Qed.

(** RC4 with key "Key" on "Plaintext". *)
Example rc4_key_plaintext :
  match Crypto.NewCipher (bytes_of_string "Key") with
  | Ok c => Some (hex (fst (Crypto.XORKeyStream c (bytes_of_string "Plaintext"))))
  | Err _ => None
  end
  = Some "bbf316e8d940af0ad3"%string.
Proof. vm_compute. reflexivity. Qed.

(** ** Slices and copies *)

Lemma length_copy (dst src : bytes) (lo hi : nat) :
  (lo <= hi <= length dst)%nat -> length (copy dst lo hi src) = length dst.
Proof.
  intros Hb. unfold copy.
  rewrite !length_app, !length_firstn, length_skipn. lia.
Qed.

Lemma nth_copy (dst src : bytes) (lo hi i : nat) (d : Z) :
  (lo <= hi <= length dst)%nat ->
  nth i (copy dst lo hi src) d =
  if ((lo <=? i) && (i <? lo + Nat.min (hi - lo) (length src)))%nat
  then nth (i - lo) src d else nth i dst d.
Proof.
  intros Hb. unfold copy.
  set (k := Nat.min (hi - lo) (length src)).
  destruct (Nat.leb_spec lo i) as [Hlo | Hlo]; cbn [andb].
  - rewrite app_nth2 by (rewrite length_firstn; lia).
    rewrite length_firstn, Nat.min_l by lia.
    destruct (Nat.ltb_spec i (lo + k)) as [Hk | Hk].
    + rewrite app_nth1 by (rewrite length_firstn; lia).
      rewrite nth_firstn.
      destruct (Nat.ltb_spec (i - lo) k); [reflexivity | lia].
    + rewrite app_nth2 by (rewrite length_firstn; lia).
      rewrite length_firstn, nth_skipn.
      f_equal. lia.
  - rewrite app_nth1 by (rewrite length_firstn; lia).
    rewrite nth_firstn.
    destruct (Nat.ltb_spec i lo); [reflexivity | lia].
Qed.

Lemma length_slice (b : bytes) (lo hi : nat) :
  (hi <= length b)%nat -> length (slice lo hi b) = (hi - lo)%nat.
Proof.
  intros Hb. unfold slice. rewrite length_firstn, length_skipn. lia.
Qed.

Lemma nth_slice (b : bytes) (lo hi i : nat) (d : Z) :
  (i < hi - lo)%nat -> nth i (slice lo hi b) d = nth (lo + i) b d.
Proof.
  intros Hi. unfold slice. rewrite nth_firstn, nth_skipn.
  destruct (Nat.ltb_spec i (hi - lo)); [reflexivity | lia].
Qed.

(** A write outside [a, b) leaves [b[a:b]] as it was. *)
Lemma slice_copy_other (dst src : bytes) (lo hi a b : nat) :
  (lo <= hi <= length dst)%nat -> (b <= lo \/ hi <= a)%nat ->
  slice a b (copy dst lo hi src) = slice a b dst.
Proof.
  intros Hb Hd.
  apply nth_ext with (d := 0) (d' := 0).
  - unfold slice. rewrite !length_firstn, !length_skipn, length_copy by assumption.
    reflexivity.
  - intros i Hi.
    assert (Hi' : (i < b - a)%nat).
    { unfold slice in Hi. rewrite length_firstn in Hi. lia. }
    rewrite !nth_slice by assumption.
    rewrite nth_copy by assumption.
    destruct (Nat.leb_spec lo (a + i)); cbn [andb]; [| reflexivity].
    destruct (Nat.ltb_spec (a + i) (lo + Nat.min (hi - lo) (length src)));
      [lia | reflexivity].
Qed.

(** A write of at least [hi - lo] bytes is read back from [b[lo:hi]]. *)
Lemma slice_copy_same (dst src : bytes) (lo hi : nat) :
  (lo <= hi <= length dst)%nat -> (hi - lo <= length src)%nat ->
  slice lo hi (copy dst lo hi src) = firstn (hi - lo) src.
Proof.
  intros Hb Hs.
  apply nth_ext with (d := 0) (d' := 0).
  - rewrite length_slice by (rewrite length_copy; lia).
    rewrite length_firstn. lia.
  - intros i Hi.
    rewrite length_slice in Hi by (rewrite length_copy; lia).
    rewrite nth_slice, nth_copy, nth_firstn by assumption.
    destruct (Nat.leb_spec lo (lo + i)); [| lia].
    destruct (Nat.ltb_spec (lo + i) (lo + Nat.min (hi - lo) (length src))); [| lia].
    destruct (Nat.ltb_spec i (hi - lo)); [| lia].
    cbn [andb]. f_equal. lia.
Qed.

Lemma skipn_copy (dst src : bytes) (lo hi k : nat) :
  (lo <= hi <= length dst)%nat -> (hi <= k)%nat ->
  skipn k (copy dst lo hi src) = skipn k dst.
Proof.
  intros Hb Hk.
  apply nth_ext with (d := 0) (d' := 0).
  - rewrite !length_skipn, length_copy by assumption. reflexivity.
  - intros i Hi. rewrite !nth_skipn, nth_copy by assumption.
    destruct (Nat.leb_spec lo (k + i)); cbn [andb]; [| reflexivity].
    destruct (Nat.ltb_spec (k + i) (lo + Nat.min (hi - lo) (length src)));
      [lia | reflexivity].
Qed.

Lemma slice_app_l (a b : bytes) (lo hi : nat) :
  (hi <= length a)%nat -> slice lo hi (a ++ b) = slice lo hi a.
Proof.
  intros Hh. unfold slice.
  rewrite skipn_app, firstn_app, length_skipn.
  replace (hi - lo - (length a - lo))%nat with 0%nat by lia.
  rewrite firstn_O, app_nil_r. reflexivity.
Qed.

(** ** Little-endian encodings *)

Lemma testbit_wrap8 (v n : Z) :
  0 <= n -> Z.testbit (wrap8 v) n = (n <? 8) && Z.testbit v n.
Proof.
  intros Hn. unfold wrap8. change 256 with (2 ^ 8).
  apply Z.testbit_mod_pow2. lia.
Qed.

Lemma Uint32_le32 (v : Z) : Uint32 (le32 v) = wrap32 v.
Proof.
  unfold Uint32, le32, wrap32. cbn [nth].
  change 4294967296 with (2 ^ 32).
  apply Z.bits_inj'. intros n Hn.
  rewrite Z.testbit_mod_pow2 by lia.
  rewrite !Z.lor_spec, !Z.shiftl_spec by lia.
  destruct (Z.ltb_spec n 8); [ | destruct (Z.ltb_spec n 16);
    [ | destruct (Z.ltb_spec n 24); [ | destruct (Z.ltb_spec n 32) ] ] ].
  all: repeat match goal with
       | |- context [Z.testbit (wrap8 ?x) ?m] =>
           first [ rewrite (Z.testbit_neg_r (wrap8 x) m) by lia
                 | rewrite (testbit_wrap8 x m) by lia;
                   rewrite ?Z.shiftr_spec by lia ]
       end.
  all: repeat match goal with
       | |- context [?a <? ?b] => destruct (Z.ltb_spec a b); try lia
       end.
  all: cbn [andb orb]; rewrite ?orb_false_r;
       try reflexivity; try (f_equal; lia).
Qed.

Lemma Uint16_le16 (v : Z) : Uint16 (le16 v) = wrap16 v.
Proof.
  unfold Uint16, le16, wrap16. cbn [nth].
  change 65536 with (2 ^ 16).
  apply Z.bits_inj'. intros n Hn.
  rewrite Z.testbit_mod_pow2 by lia.
  rewrite !Z.lor_spec, !Z.shiftl_spec by lia.
  destruct (Z.ltb_spec n 8); [ | destruct (Z.ltb_spec n 16) ].
  all: repeat match goal with
       | |- context [Z.testbit (wrap8 ?x) ?m] =>
           first [ rewrite (Z.testbit_neg_r (wrap8 x) m) by lia
                 | rewrite (testbit_wrap8 x m) by lia;
                   rewrite ?Z.shiftr_spec by lia ]
       end.
  all: repeat match goal with
       | |- context [?a <? ?b] => destruct (Z.ltb_spec a b); try lia
       end.
  all: cbn [andb orb]; rewrite ?orb_false_r;
       try reflexivity; try (f_equal; lia).
Qed.

Lemma wrap32_idem (v : Z) : wrap32 (wrap32 v) = wrap32 v.
Proof. unfold wrap32. apply Z.mod_mod. lia. Qed.

Lemma wrap16_idem (v : Z) : wrap16 (wrap16 v) = wrap16 v.
Proof. unfold wrap16. apply Z.mod_mod. lia. Qed.

Lemma wrap32_small (v : Z) : is_uint32 v -> wrap32 v = v.
Proof. unfold is_uint32, wrap32. intros Hv. apply Z.mod_small. lia. Qed.

(** ** Writes into a buffer of known length *)

Lemma length_copy_n (n : nat) (dst src : bytes) (lo hi : nat) :
  length dst = n -> (lo <= hi <= n)%nat -> length (copy dst lo hi src) = n.
Proof. intros <- Hb. apply length_copy. exact Hb. Qed.

Lemma length_PutUint16_n (n : nat) (b : bytes) (lo : nat) (v : Z) :
  length b = n -> (lo + 2 <= n)%nat -> length (PutUint16 b lo v) = n.
Proof. intros Hl Hb. unfold PutUint16. apply length_copy_n; [exact Hl | lia]. Qed.

Lemma length_PutUint32_n (n : nat) (b : bytes) (lo : nat) (v : Z) :
  length b = n -> (lo + 4 <= n)%nat -> length (PutUint32 b lo v) = n.
Proof. intros Hl Hb. unfold PutUint32. apply length_copy_n; [exact Hl | lia]. Qed.

Lemma length_make (n : nat) : length (make n) = n.
Proof. apply repeat_length. Qed.

Lemma slice_copy_other_n (n : nat) (dst src : bytes) (lo hi a b : nat) :
  length dst = n -> (lo <= hi <= n)%nat -> (b <= lo \/ hi <= a)%nat ->
  slice a b (copy dst lo hi src) = slice a b dst.
Proof. intros <- Hb Hd. apply slice_copy_other; assumption. Qed.

Lemma slice_PutUint16_other_n (n : nat) (buf : bytes) (lo a b : nat) (v : Z) :
  length buf = n -> (lo + 2 <= n)%nat -> (b <= lo \/ lo + 2 <= a)%nat ->
  slice a b (PutUint16 buf lo v) = slice a b buf.
Proof.
  intros Hl Hb Hd. unfold PutUint16.
  apply (slice_copy_other_n n); [exact Hl | lia | lia].
Qed.

Lemma slice_PutUint32_other_n (n : nat) (buf : bytes) (lo a b : nat) (v : Z) :
  length buf = n -> (lo + 4 <= n)%nat -> (b <= lo \/ lo + 4 <= a)%nat ->
  slice a b (PutUint32 buf lo v) = slice a b buf.
Proof.
  intros Hl Hb Hd. unfold PutUint32.
  apply (slice_copy_other_n n); [exact Hl | lia | lia].
Qed.

Lemma slice_PutUint16_same (buf : bytes) (lo : nat) (v : Z) :
  (lo + 2 <= length buf)%nat ->
  slice lo (lo + 2) (PutUint16 buf lo v) = le16 (wrap16 v).
Proof.
  intros Hb. unfold PutUint16.
  rewrite slice_copy_same by (cbn [length le16]; lia).
  replace (lo + 2 - lo)%nat with 2%nat by lia. reflexivity.
Qed.

Lemma slice_PutUint32_same (buf : bytes) (lo : nat) (v : Z) :
  (lo + 4 <= length buf)%nat ->
  slice lo (lo + 4) (PutUint32 buf lo v) = le32 (wrap32 v).
Proof.
  intros Hb. unfold PutUint32.
  rewrite slice_copy_same by (cbn [length le32]; lia).
  replace (lo + 4 - lo)%nat with 4%nat by lia. reflexivity.
Qed.

Create HintDb buf.
#[export] Hint Resolve length_copy_n length_PutUint16_n length_PutUint32_n
  length_make : buf.
#[export] Hint Extern 1 (_ <= _ <= _)%nat => lia : buf.
#[export] Hint Extern 1 (_ <= _)%nat => lia : buf.
#[export] Hint Extern 1 (_ \/ _) => lia : buf.

(** Drops the writes that do not touch the slice being read, in a
    buffer of [n] bytes. *)
Ltac peel n :=
  repeat first
    [ rewrite (slice_PutUint32_other_n n) by auto 80 with buf
    | rewrite (slice_PutUint16_other_n n) by auto 80 with buf
    | rewrite (slice_copy_other_n n) by auto 80 with buf ].

Section InitUnicode.
Context `{Constants} `{Strings}.

Lemma InitSecContext_header (n : Unicode.NtlmProvider) :
  exists hdr rest,
    Unicode.InitSecContext n =
      (Ok (hdr ++ rest), Unicode.set_NegotiateMessage (hdr ++ rest)
                           (Unicode.set_NegotiateFlags (negotiated_flags n) n))
    /\ length hdr = 40%nat
    /\ slice 12 16 hdr = le32 (wrap32 (negotiated_flags n)).
Proof.
  unfold Unicode.InitSecContext, negotiated_flags, requested_flags, supplied_bits.
  destruct (is_empty (Unicode.Domain n)) eqn:Hd;
    destruct (is_empty (Unicode.Workstation n)) eqn:Hw;
    cbn [negb Unicode.Domain Unicode.Workstation Unicode.set_NegotiateFlags
         Unicode.NegotiateMessage Unicode.set_NegotiateMessage];
    rewrite ?Hd, ?Hw; cbn [negb];
    rewrite ?Z.lor_0_r, ?Z.lor_0_l, ?Z.lor_assoc;
    (eexists; eexists; split; [reflexivity | split; [auto 80 with buf |]]);
    peel 40%nat;
    apply slice_PutUint32_same with (lo := 12%nat);
    match goal with |- (_ <= length ?b)%nat =>
      assert (Hl : length b = 40%nat) by auto 80 with buf; rewrite Hl; lia end.
Qed.

End InitUnicode.

Section InitOem.
Context `{Constants} `{Strings}.

Lemma Oem_InitSecContext_header (n : Oem.NtlmProvider) :
  exists hdr rest n',
    Oem.InitSecContext n = (Ok (hdr ++ rest), n')
    /\ Oem.NegotiateFlags n' = oem_negotiated_flags n
    /\ length hdr = 40%nat
    /\ slice 12 16 hdr = le32 (wrap32 (oem_negotiated_flags n)).
Proof.
  unfold Oem.InitSecContext, oem_negotiated_flags, oem_requested_flags, oem_bits.
  destruct n as [us pw hs dom ws oem tn nf sbk kek rsk esk csk ssk sh ch sq scc cc nm am ti].
  cbn [Oem.Domain Oem.Workstation Oem.IsOEM Oem.NegotiateFlags].
  destruct (nf =? 0); destruct oem; destruct (is_empty dom) eqn:Hd;
    destruct (is_empty ws) eqn:Hw;
    repeat progress
      (cbn [negb andb Oem.Domain Oem.Workstation Oem.IsOEM Oem.NegotiateFlags
            Oem.set_NegotiateFlags Oem.NegotiateMessage Oem.set_NegotiateMessage];
       rewrite ?Hd, ?Hw);
    rewrite ?Z.lor_0_r, ?Z.lor_0_l, ?Z.lor_assoc;
    (eexists; eexists; eexists; split; [reflexivity |
       split; [reflexivity | split; [auto 80 with buf |]]]);
    peel 40%nat;
    apply slice_PutUint32_same with (lo := 12%nat);
    match goal with |- (_ <= length ?b)%nat =>
      assert (Hl : length b = 40%nat) by auto 80 with buf; rewrite Hl; lia end.
Qed.

End InitOem.

Lemma bytes_eqb_eq (a b : bytes) : bytes_eqb a b = true <-> a = b.
Proof.
  revert b. induction a as [| x a IH]; intros [| y b]; cbn [bytes_eqb];
    try (split; [discriminate | discriminate]); [tauto |].
  rewrite andb_true_iff, Z.eqb_eq, IH.
  split; [intros [-> ->]; reflexivity | intros Heq; inversion Heq; auto].
Qed.

Section Checks.
Context `{Constants} `{Strings} `{Unicode.Helpers}.

(** Without a domain and a workstation (Unicode provider), or outside
    OEM mode (OEM provider), the negotiated flags are the requested
    ones. *)
Lemma negotiated_flags_plain (n : Unicode.NtlmProvider) :
  Unicode.Domain n = ""%string -> Unicode.Workstation n = ""%string ->
  negotiated_flags n = requested_flags n.
Proof.
  intros Hd Hw. unfold negotiated_flags, supplied_bits. rewrite Hd, Hw.
  cbn [is_empty Z.lor]. apply Z.lor_0_r.
Qed.

Lemma oem_negotiated_flags_plain (m : Oem.NtlmProvider) :
  Oem.IsOEM m = false -> oem_negotiated_flags m = oem_requested_flags m.
Proof.
  intros Ho. unfold oem_negotiated_flags, oem_bits. rewrite Ho. apply Z.lor_0_r.
Qed.

(** C2 (as amended). The little-endian flags field at offset 12 of the
    NEGOTIATE message holds the flags the provider negotiates and
    stores back in NegotiateFlags: the caller's flags, or the default
    set when they are zero, ORed with the bits the provider adds for a
    non-empty domain and workstation (Unicode provider) or in OEM mode
    (OEM provider). *)
Theorem InitSecContext_flags_field
    (n : Unicode.NtlmProvider) (m : Oem.NtlmProvider) :
  is_uint32 (negotiated_flags n) ->
  is_uint32 (oem_negotiated_flags m) ->
  (exists msg n', Unicode.InitSecContext n = (Ok msg, n')
      /\ Unicode.NegotiateFlags n' = negotiated_flags n
      /\ Uint32 (slice 12 16 msg) = negotiated_flags n)
  /\ (exists msg m', Oem.InitSecContext m = (Ok msg, m')
      /\ Oem.NegotiateFlags m' = oem_negotiated_flags m
      /\ Uint32 (slice 12 16 msg) = oem_negotiated_flags m).
Proof.
  intros Hn Hm. split.
  - destruct (InitSecContext_header n) as (hdr & rest & Hrun & Hlen & Hfl).
    eexists. eexists. split; [exact Hrun |]. split; [reflexivity |].
    rewrite slice_app_l by lia.
    rewrite Hfl, Uint32_le32, wrap32_idem. apply wrap32_small. exact Hn.
  - destruct (Oem_InitSecContext_header m) as (hdr & rest & m' & Hrun & Hnf & Hlen & Hfl).
    eexists. eexists. split; [exact Hrun |]. split; [exact Hnf |].
    rewrite slice_app_l by lia.
    rewrite Hfl, Uint32_le32, wrap32_idem. apply wrap32_small. exact Hm.
Qed.

(** C3. A CHALLENGE buffer shorter than 48 bytes is refused with the
    length error (the design's MalformedMessage) and the session is
    returned exactly as it was. *)
Theorem AcceptSecContext_short_buffer (sc : bytes) (n : Unicode.NtlmProvider) :
  (length sc < 48)%nat ->
  Unicode.AcceptSecContext sc n
    = (Err (errorString "invalid challenge message length"), n)
  /\ spec_error_kind (errorString "invalid challenge message length")
     = Some MalformedMessage.
Proof.
  intros Hlen. split; [| reflexivity].
  unfold Unicode.AcceptSecContext.
  destruct (Nat.ltb_spec (length sc) 48) as [_ | Hge]; [reflexivity | lia].
Qed.

(** C4. A buffer of at least 48 bytes whose first 8 bytes are not the
    signature, or whose message type at offset 8 is not 2, is refused
    with an error of the design's ProtocolMismatch kind; the call
    returns normally and the session is unchanged. *)
Theorem AcceptSecContext_bad_header (sc : bytes) (n : Unicode.NtlmProvider) :
  (48 <= length sc)%nat ->
  slice 0 8 sc <> Signature \/ Uint32 (slice 8 12 sc) <> 2 ->
  exists e, Unicode.AcceptSecContext sc n = (Err e, n)
            /\ spec_error_kind e = Some ProtocolMismatch.
Proof.
  intros Hlen Hbad.
  unfold Unicode.AcceptSecContext.
  destruct (Nat.ltb_spec (length sc) 48) as [Hlt | _]; [lia |].
  destruct (bytes_eqb (slice 0 8 sc) Signature) eqn:Hsig; cbn [negb].
  - apply bytes_eqb_eq in Hsig.
    destruct (Z.eqb_spec (Uint32 (slice 8 12 sc)) MessageTypeNtLmChallenge)
      as [Hty | Hty]; cbn [negb].
    + exfalso. destruct Hbad as [Hbad | Hbad]; [exact (Hbad Hsig) | exact (Hbad Hty)].
    + eexists. split; reflexivity.
  - eexists. split; reflexivity.
Qed.

(** C5. A CHALLENGE that passes the length, signature, message-type and
    target-name checks but whose flags, ANDed with the session's, lack
    RequestTarget or NegotiateTargetInfo is refused with the
    "invalid negotiate flags" error (ProtocolMismatch): no AUTHENTICATE
    message is produced and the session is unchanged. *)
Theorem AcceptSecContext_missing_flags
    (sc : bytes) (n : Unicode.NtlmProvider) (targetName : bytes) :
  (48 <= length sc)%nat ->
  slice 0 8 sc = Signature ->
  Uint32 (slice 8 12 sc) = 2 ->
  Unicode.extractFields (slice 12 20 sc) sc = Ok targetName ->
  Z.land (Z.land (Unicode.NegotiateFlags n) (Uint32 (slice 20 24 sc))) RequestTarget = 0
  \/ Z.land (Z.land (Unicode.NegotiateFlags n) (Uint32 (slice 20 24 sc)))
       NegotiateTargetInfo = 0 ->
  Unicode.AcceptSecContext sc n = (Err (errorString "invalid negotiate flags"), n)
  /\ spec_error_kind (errorString "invalid negotiate flags") = Some ProtocolMismatch.
Proof.
  intros Hlen Hsig Hty Hname Hflags. split; [| reflexivity].
  unfold Unicode.AcceptSecContext.
  destruct (Nat.ltb_spec (length sc) 48) as [Hlt | _]; [lia |].
  apply bytes_eqb_eq in Hsig. rewrite Hsig. cbn [negb].
  rewrite Hty. cbn [negb Z.eqb MessageTypeNtLmChallenge Pos.eqb].
  unfold Unicode.bind at 1. unfold Unicode.lift at 1. rewrite Hname.
  unfold Unicode.bind at 1. unfold Unicode.gets at 1.
  destruct Hflags as [Hz | Hz]; rewrite Hz; cbn [Z.eqb orb];
    rewrite ?orb_true_r; reflexivity.
Qed.

(** C8. Without the NegotiateSign flag [GetMIC] returns the empty byte
    string and the session it was given, every field as it was, in
    both providers. *)
Theorem GetMIC_without_sign
    (bs : bytes) (n : Unicode.NtlmProvider) (m : Oem.NtlmProvider) :
  Z.land (Unicode.NegotiateFlags n) NegotiateSign = 0 ->
  Z.land (Oem.NegotiateFlags m) NegotiateSign = 0 ->
  Unicode.GetMIC bs n = Some ([], n) /\ Oem.GetMIC bs m = Some ([], m).
Proof.
  intros Hn Hm. unfold Unicode.GetMIC, Oem.GetMIC.
  rewrite Hn, Hm. split; reflexivity.
Qed.

(** C10. [SessionKey] has no error result: it returns the
    ExportedSessionKey field of the session it is given, in both
    providers; on a session whose key is still unset, as before any
    AcceptSecContext, that is the empty buffer, also after
    InitSecContext. *)
Theorem SessionKey_returns_field
    (n : Unicode.NtlmProvider) (m : Oem.NtlmProvider) :
  (Unicode.SessionKey n = Unicode.ExportedSessionKey n
   /\ Oem.SessionKey m = Oem.ExportedSessionKey m)
  /\ (Unicode.ExportedSessionKey n = [] ->
      Unicode.SessionKey n = []
      /\ Unicode.SessionKey (snd (Unicode.InitSecContext n)) = [])
  /\ (Oem.ExportedSessionKey m = [] ->
      Oem.SessionKey m = []
      /\ Oem.SessionKey (snd (Oem.InitSecContext m)) = []).
Proof.
  split; [split; reflexivity |]. split.
  - intros Hk. split; [exact Hk |].
    destruct (InitSecContext_header n) as (hdr & rest & Hrun & _).
    rewrite Hrun. exact Hk.
  - intros Hk. split; [exact Hk |].
    unfold Oem.InitSecContext, Oem.SessionKey.
    destruct m as [us pw hs dom ws oem tn nf sbk kek rsk esk csk ssk sh ch sq scc cc nm am ti].
    cbn [Oem.ExportedSessionKey] in Hk. subst esk.
    cbn [Oem.Domain Oem.Workstation Oem.IsOEM Oem.NegotiateFlags].
    destruct (nf =? 0); destruct oem; destruct (is_empty dom) eqn:Hd;
      destruct (is_empty ws) eqn:Hw;
      repeat progress
        (cbn [negb andb Oem.Domain Oem.Workstation Oem.IsOEM Oem.NegotiateFlags
              Oem.set_NegotiateFlags Oem.NegotiateMessage Oem.set_NegotiateMessage];
         rewrite ?Hd, ?Hw);
      reflexivity.
Qed.

End Checks.

(** ** Signatures *)

Lemma length_le32 (v : Z) : length (le32 v) = 4%nat.
Proof. reflexivity. Qed.

Lemma length_md5 (msg : bytes) : length (Crypto.md5 msg) = 16%nat.
Proof. unfold Crypto.md5. cbv zeta. rewrite !length_app, !length_le32. reflexivity. Qed.

Lemma length_hmac_md5 (key msg : bytes) : length (Crypto.hmac_md5 key msg) = 16%nat.
Proof. unfold Crypto.hmac_md5. cbv zeta. apply length_md5. Qed.

Lemma length_XORKeyStream (src : bytes) (c : Crypto.Cipher) :
  length (fst (Crypto.XORKeyStream c src)) = length src.
Proof.
  revert c. induction src as [| x src IH]; intros c; [reflexivity |].
  cbn [Crypto.XORKeyStream]. cbv zeta.
  match goal with |- context [Crypto.XORKeyStream ?c' src] =>
    specialize (IH c'); destruct (Crypto.XORKeyStream c' src) as [out c''] end.
  cbn [fst length] in *. rewrite IH. reflexivity.
Qed.

Lemma signature_seq_record (checksum : bytes) (seqNum : Z) :
  length checksum = 8%nat ->
  signature_seq ([] ++ le32 1 ++ checksum ++ le32 seqNum) = wrap32 seqNum.
Proof.
  intros Hc. unfold signature_seq, slice. cbn [app].
  rewrite app_assoc.
  rewrite skipn_app.
  rewrite skipn_all2 by (rewrite length_app, length_le32, Hc; cbn; lia).
  rewrite length_app, length_le32, Hc.
  cbn [app Nat.sub Nat.add skipn firstn le32].
  apply Uint32_le32.
Qed.

Section Sign.
Context `{Constants}.

Lemma sign_returns (flags : Z) (handle : option Crypto.Cipher)
    (key : bytes) (seqNum : Z) (bs : bytes) :
  Z.land flags NegotiateKeyExch = 0 \/ handle <> None ->
  exists sig handle',
    sign [] flags handle key seqNum bs = Some (sig, wrap32 (seqNum + 1), handle')
    /\ length sig = 16%nat
    /\ signature_seq sig = wrap32 seqNum
    /\ (Z.land flags NegotiateKeyExch = 0 -> handle' = handle).
Proof.
  intros Hh. unfold sign. cbv zeta.
  set (checksum := firstn 8 (Crypto.hmac_md5 key (le32 seqNum ++ bs))).
  assert (Hc : length checksum = 8%nat).
  { unfold checksum. rewrite length_firstn, length_hmac_md5. reflexivity. }
  destruct (Z.eqb_spec (Z.land flags NegotiateKeyExch) 0) as [Hz | Hz].
  - exists ([] ++ le32 1 ++ checksum ++ le32 seqNum), handle.
    split; [reflexivity |]. split; [| split; [| reflexivity]].
    + cbn [app]. rewrite !length_app, !length_le32, Hc. reflexivity.
    + apply signature_seq_record. exact Hc.
  - destruct handle as [c |]; [| destruct Hh as [Hh | Hh]; congruence].
    pose proof (length_XORKeyStream checksum c) as Hx.
    destruct (Crypto.XORKeyStream c checksum) as [out c'].
    cbn [fst] in Hx. rewrite Hc in Hx.
    exists ([] ++ le32 1 ++ out ++ le32 seqNum), (Some c').
    split; [reflexivity |]. split; [| split; [| intros; contradiction]].
    + cbn [app]. rewrite !length_app, !length_le32, Hx. reflexivity.
    + apply signature_seq_record. exact Hx.
Qed.

Lemma sign_nil_handle (dst : bytes) (flags : Z) (key : bytes) (seqNum : Z) (bs : bytes) :
  Z.land flags NegotiateKeyExch <> 0 ->
  sign dst flags None key seqNum bs = None.
Proof.
  intros Hz. unfold sign. cbv zeta.
  destruct (Z.eqb_spec (Z.land flags NegotiateKeyExch) 0); [contradiction | reflexivity].
Qed.



(** One call on a session that signs: the signature carries the
    counter, the counter moves on by one (modulo 2^32), and the flags
    and the ability to sign are kept. *)
Lemma GetMIC_step (bs : bytes) (n : Unicode.NtlmProvider) :
  Z.land (Unicode.NegotiateFlags n) NegotiateSign <> 0 -> can_sign n ->
  exists sig n',
    Unicode.GetMIC bs n = Some (sig, n')
    /\ signature_seq sig = wrap32 (Unicode.SequenceNumber n)
    /\ Unicode.SequenceNumber n' = wrap32 (Unicode.SequenceNumber n + 1)
    /\ Unicode.NegotiateFlags n' = Unicode.NegotiateFlags n
    /\ can_sign n'.
Proof.
  intros Hs Hc. unfold Unicode.GetMIC.
  destruct (Z.eqb_spec (Z.land (Unicode.NegotiateFlags n) NegotiateSign) 0);
    [contradiction |].
  destruct (sign_returns (Unicode.NegotiateFlags n) (Unicode.ClientHandle n)
              (Unicode.ClientSigningKey n) (Unicode.SequenceNumber n) bs Hc)
    as (sig & h' & Hrun & Hlen & Hseq & Hsame).
  rewrite Hrun. eexists. eexists. split; [reflexivity |].
  split; [exact Hseq |]. split; [reflexivity |]. split; [reflexivity |].
  unfold can_sign in *. cbn [Unicode.NegotiateFlags Unicode.ClientHandle
    Unicode.set_SequenceNumber Unicode.set_ClientHandle].
  destruct (Z.eq_dec (Z.land (Unicode.NegotiateFlags n) NegotiateKeyExch) 0)
    as [Hz | Hz]; [left; exact Hz | right].
  unfold sign in Hrun. cbv zeta in Hrun.
  destruct (Z.eqb_spec (Z.land (Unicode.NegotiateFlags n) NegotiateKeyExch) 0);
    [contradiction |].
  destruct (Unicode.ClientHandle n) as [c |]; [| discriminate].
  destruct (Crypto.XORKeyStream c _) as [out c'].
  inversion Hrun. discriminate.
Qed.

Lemma wrap32_add_l (a b : Z) : wrap32 (wrap32 a + b) = wrap32 (a + b).
Proof. unfold wrap32. rewrite Z.add_mod_idemp_l by lia. reflexivity. Qed.

Lemma wrap32_range (a : Z) : is_uint32 (wrap32 a).
Proof. unfold is_uint32, wrap32. apply Z.mod_pos_bound. lia. Qed.

(** The run of [GetMIC] over a list of messages: the i-th signature
    carries the start counter plus i, modulo 2^32. *)
Lemma GetMIC_all_sequence (msgs : list bytes) (n : Unicode.NtlmProvider) :
  Z.land (Unicode.NegotiateFlags n) NegotiateSign <> 0 -> can_sign n ->
  is_uint32 (Unicode.SequenceNumber n) ->
  exists sigs n',
    GetMIC_all msgs n = Some (sigs, n')
    /\ length sigs = length msgs
    /\ Unicode.SequenceNumber n'
       = wrap32 (Unicode.SequenceNumber n + Z.of_nat (length msgs))
    /\ forall i, (i < length msgs)%nat ->
         signature_seq (nth i sigs [])
         = wrap32 (Unicode.SequenceNumber n + Z.of_nat i).
Proof.
  revert n. induction msgs as [| bs rest IH]; intros n Hs Hc Hr.
  - exists [], n. split; [reflexivity |]. split; [reflexivity |].
    split; [| cbn [length]; intros; lia].
    cbn [length Z.of_nat]. rewrite Z.add_0_r, wrap32_small by exact Hr. reflexivity.
  - destruct (GetMIC_step bs n Hs Hc) as (sig & n1 & Hrun & Hseq & Hnext & Hfl & Hc1).
    destruct (IH n1) as (sigs & n' & Hrest & Hlen & Hfin & Hith).
    { rewrite Hfl. exact Hs. }
    { exact Hc1. }
    { rewrite Hnext. apply wrap32_range. }
    exists (sig :: sigs), n'. cbn [GetMIC_all]. rewrite Hrun, Hrest.
    split; [reflexivity |]. split; [cbn [length]; rewrite Hlen; reflexivity |].
    split.
    + rewrite Hfin, Hnext, wrap32_add_l. f_equal. cbn [length]. lia.
    + intros [| i] Hi; cbn [nth].
      * rewrite Hseq. f_equal. cbn [Z.of_nat]. lia.
      * rewrite Hith by (cbn [length] in Hi; lia).
        rewrite Hnext, wrap32_add_l. f_equal. lia.
Qed.

(** C7 (as amended). On a session that signs (NegotiateSign set and the
    client cipher present whenever key exchange is negotiated) and
    whose counter is 0, a run of at most 2^32 [GetMIC] calls returns
    signatures that carry 0, 1, 2, ... in order, one more per call; the
    counter ends at the number of calls modulo 2^32. *)
Theorem GetMIC_sequence_numbers (msgs : list bytes) (n : Unicode.NtlmProvider) :
  Z.land (Unicode.NegotiateFlags n) NegotiateSign <> 0 ->
  can_sign n ->
  Unicode.SequenceNumber n = 0 ->
  Z.of_nat (length msgs) <= 4294967296 ->
  exists sigs n',
    GetMIC_all msgs n = Some (sigs, n')
    /\ length sigs = length msgs
    /\ (forall i, (i < length msgs)%nat ->
          signature_seq (nth i sigs []) = Z.of_nat i)
    /\ Unicode.SequenceNumber n' = wrap32 (Z.of_nat (length msgs)).
Proof.
  intros Hs Hc H0 Hmax.
  destruct (GetMIC_all_sequence msgs n Hs Hc) as (sigs & n' & Hrun & Hlen & Hfin & Hith).
  { rewrite H0. unfold is_uint32. lia. }
  exists sigs, n'. split; [exact Hrun |]. split; [exact Hlen |]. split.
  - intros i Hi. rewrite Hith, H0 by exact Hi.
    apply wrap32_small. unfold is_uint32. lia.
  - rewrite Hfin, H0. reflexivity.
Qed.

End Sign.

(** ** Successful runs of AcceptSecContext *)

Lemma bind_Ok_inv {A B} (m : Unicode.M A) (k : A -> Unicode.M B)
    (n n' : Unicode.NtlmProvider) (b : B) :
  Unicode.bind m k n = (Ok b, n') ->
  exists a n1, m n = (Ok a, n1) /\ k a n1 = (Ok b, n').
Proof.
  unfold Unicode.bind. destruct (m n) as [[a | e] n1]; intros Hk.
  - exists a, n1. split; [reflexivity | exact Hk].
  - discriminate.
Qed.

Lemma call_inv {A} (f : Unicode.NtlmProvider -> A * Unicode.NtlmProvider)
    (n n1 : Unicode.NtlmProvider) (a : A) :
  Unicode.call f n = (Ok a, n1) -> f n = (a, n1).
Proof.
  unfold Unicode.call. destruct (f n) as [a' n']. intros Heq.
  inversion Heq. reflexivity.
Qed.

Lemma check_inv (err : option error) (n n1 : Unicode.NtlmProvider) (u : unit) :
  Unicode.check err n = (Ok u, n1) -> err = None /\ n1 = n.
Proof.
  destruct err as [e |]; cbn [Unicode.check]; unfold Unicode.fail, Unicode.ret;
    intros Heq; inversion Heq. split; reflexivity.
Qed.

Lemma gets_inv {A} (f : Unicode.NtlmProvider -> A)
    (n n1 : Unicode.NtlmProvider) (a : A) :
  Unicode.gets f n = (Ok a, n1) -> a = f n /\ n1 = n.
Proof. unfold Unicode.gets. intros Heq. inversion Heq. split; reflexivity. Qed.

Lemma modify_inv (f : Unicode.NtlmProvider -> Unicode.NtlmProvider)
    (n n1 : Unicode.NtlmProvider) (u : unit) :
  Unicode.modify f n = (Ok u, n1) -> n1 = f n.
Proof. unfold Unicode.modify. intros Heq. inversion Heq. reflexivity. Qed.

Lemma lift_inv {A} (r : result A) (n n1 : Unicode.NtlmProvider) (a : A) :
  Unicode.lift r n = (Ok a, n1) -> r = Ok a /\ n1 = n.
Proof. unfold Unicode.lift. intros Heq. inversion Heq. split; reflexivity. Qed.

(** One step of a successful run: the first action succeeded with
    value [a] in session [n1]. *)
Ltac bind_inv Hrun a n1 Hm :=
  apply bind_Ok_inv in Hrun as (a & n1 & Hm & Hrun);
  lazymatch type of Hm with
  | Unicode.check _ _ = _ => apply check_inv in Hm as [Hm ->]
  | Unicode.call _ _ = _ => apply call_inv in Hm
  | Unicode.gets _ _ = _ => apply gets_inv in Hm as [-> ->]
  | Unicode.modify _ _ = _ => apply modify_inv in Hm as ->
  | Unicode.lift _ _ = _ => apply lift_inv in Hm as [Hm ->]
  | _ => idtac
  end;
  cbv beta in Hrun.

Ltac bind_skip Hrun :=
  let a := fresh "a" in let n1 := fresh "n" in let Hm := fresh "Hm" in
  bind_inv Hrun a n1 Hm.

Section Accept.
Context `{Constants} `{Strings} `{Unicode.Helpers}.

Lemma AcceptSecContext_Ok (sc : bytes) (n n' : Unicode.NtlmProvider) (out : bytes) :
  Unicode.AcceptSecContext sc n = (Ok out, n') ->
  exists targetName n0 lm n1 nt n2,
    Unicode.NewLMChallengeResponse n0 = (lm, n1)
    /\ Unicode.NewNtChallengeResponse targetName n1 = (Ok nt, n2)
    /\ identity n0 = identity n
    /\ identity n' = identity n2
    /\ Unicode.RandomSessionKey n' = Unicode.RandomSessionKey n2
    /\ Unicode.ExportedSessionKey n' = Unicode.ExportedSessionKey n2
    /\ Unicode.NegotiateMessage n' = Unicode.NegotiateMessage n2
    /\ Unicode.AuthenticateMessage n' = out
    /\ let domain := ToUnicode (ToUpper (Unicode.Domain n2)) in
       let user := ToUnicode (ToUpper (Unicode.User n2)) in
       let workstation := ToUnicode (ToUpper (Unicode.Workstation n2)) in
       let hdr := authenticate_header lm nt domain user workstation
                    (Unicode.RandomSessionKey n2) (Unicode.NegotiateFlags n2) in
       let payload := lm ++ nt ++ domain ++ user ++ workstation
                        ++ Unicode.RandomSessionKey n2 in
       out = copy (hdr ++ payload) 72 88
               (slice 72 88 hdr
                  ++ Crypto.hmac_md5 (Unicode.ExportedSessionKey n2)
                       (Unicode.NegotiateMessage n2 ++ hdr ++ payload)).
Proof.
  intros Hrun. unfold Unicode.AcceptSecContext in Hrun.
  destruct (length sc <? 48)%nat; [discriminate |].
  destruct (negb (bytes_eqb (slice 0 8 sc) Signature)); [discriminate |].
  destruct (negb (Uint32 (slice 8 12 sc) =? MessageTypeNtLmChallenge)); [discriminate |].
  bind_inv Hrun targetName n0 Hname.
  bind_skip Hrun.
  match type of Hrun with (if ?c then _ else _) _ = _ => destruct c; [discriminate |] end.
  bind_skip Hrun.
  bind_inv Hrun targetInfo n0 Hinfo.
  bind_inv Hrun avpairs n0 Hpairs.
  destruct (Unicode.NewTargetInformation avpairs) as [ti err].
  bind_skip Hrun.
  bind_inv Hrun u n0 Herr.
  bind_inv Hrun lm n1 Hlm.
  bind_inv Hrun nt n2 Hnt.
  do 6 bind_skip Hrun.
  do 4 bind_skip Hrun.
  match type of Hrun with context [Unicode.signKey ?k ?m ?f] =>
    destruct (Unicode.signKey k m f) as [ssk err1] end.
  bind_skip Hrun.
  bind_inv Hrun u1 n3 Herr1.
  do 2 bind_skip Hrun.
  match type of Hrun with context [Unicode.signKey ?k ?m ?f] =>
    destruct (Unicode.signKey k m f) as [csk err2] end.
  bind_skip Hrun.
  bind_inv Hrun u2 n3 Herr2.
  do 2 bind_skip Hrun.
  bind_inv Hrun sealedClientKey n3 Hsc.
  bind_inv Hrun sealedServerKey n3 Hss.
  destruct (Crypto.NewCipher sealedClientKey) as [cc | e];
    [| bind_skip Hrun; discriminate].
  bind_skip Hrun.
  destruct (Crypto.NewCipher sealedServerKey) as [cs | e];
    [| bind_skip Hrun; discriminate].
  bind_skip Hrun.
  apply gets_inv in Hrun as [-> ->].
  exists targetName,
    (Unicode.set_TargetInfo ti (Unicode.set_ServerChallenge (slice 24 32 sc) n)),
    lm, n1, nt, n2.
  split; [exact Hlm |]. split; [exact Hnt |].
  cbv zeta. unfold identity.
  cbn [Unicode.AuthenticateMessage Unicode.set_AuthenticateMessage
    Unicode.set_ServerSigningKey Unicode.set_ClientSigningKey
    Unicode.set_ClientHandle Unicode.set_ServerHandle
    Unicode.set_TargetInfo Unicode.set_ServerChallenge
    Unicode.ExportedSessionKey Unicode.NegotiateMessage
    Unicode.RandomSessionKey Unicode.NegotiateFlags Unicode.Domain
    Unicode.User Unicode.Workstation].
  do 6 (split; [reflexivity |]).
  unfold authenticate_header. cbv zeta. cbn [app].
  rewrite <- !app_assoc. reflexivity.
Qed.

End Accept.

Lemma firstn_make_app (k : nat) (b : bytes) : firstn k (make k ++ b) = make k.
Proof.
  rewrite firstn_app, length_make, Nat.sub_diag, firstn_O, app_nil_r.
  apply firstn_all2. rewrite length_make. lia.
Qed.

Lemma slice_app_mid (a b c : bytes) :
  slice (length a) (length a + length b) (a ++ b ++ c) = b.
Proof.
  unfold slice. rewrite skipn_app, skipn_all2, Nat.sub_diag by lia.
  cbn [skipn app].
  replace (length a + length b - length a)%nat with (length b) by lia.
  rewrite firstn_app, Nat.sub_diag, firstn_O, app_nil_r.
  apply firstn_all2. lia.
Qed.

Section Header.
Context `{Constants}.
Variables lm nt domain user workstation randomSessionKey : bytes.
Variable flags : Z.

Local Notation "'hdr'" :=
  (authenticate_header lm nt domain user workstation randomSessionKey flags).

Lemma length_authenticate_header : length hdr = 88%nat.
Proof.
  unfold authenticate_header, Unicode.putFields. cbv zeta.
  auto 80 with buf.
Qed.

Lemma authenticate_header_mic : slice 72 88 hdr = make 16.
Proof.
  unfold authenticate_header. cbv zeta.
  rewrite slice_copy_same.
  - apply firstn_all2. rewrite length_make. lia.
  - match goal with |- (_ <= _ <= length ?b)%nat =>
      assert (Hl : length b = 88%nat)
        by (unfold Unicode.putFields; auto 80 with buf);
      rewrite Hl; lia end.
  - rewrite length_make. lia.
Qed.

(** The descriptor written at [pos] for a value [v] at [offset]. *)
Ltac descriptor :=
  unfold authenticate_header, Unicode.putFields,
    field_len, field_maxlen, field_offset; cbv zeta;
  cbn [Nat.add];
  peel 88%nat;
  first
    [ match goal with |- Uint16 (slice ?lo _ (PutUint16 ?b _ _)) = _ =>
        rewrite (slice_PutUint16_same b lo)
          by (assert (Hl : length b = 88%nat) by auto 80 with buf;
              rewrite Hl; lia);
        rewrite Uint16_le16; apply wrap16_idem end
    | match goal with |- Uint32 (slice ?lo _ (PutUint32 ?b _ _)) = _ =>
        rewrite (slice_PutUint32_same b lo)
          by (assert (Hl : length b = 88%nat) by auto 80 with buf;
              rewrite Hl; lia);
        rewrite Uint32_le32; apply wrap32_idem end ].

Lemma authenticate_header_lm :
  field_len hdr 12 = wrap16 (len lm) /\ field_maxlen hdr 12 = wrap16 (len lm)
  /\ field_offset hdr 12 = wrap32 88.
Proof. repeat split; descriptor. Qed.

Lemma authenticate_header_nt :
  field_len hdr 20 = wrap16 (len nt) /\ field_maxlen hdr 20 = wrap16 (len nt)
  /\ field_offset hdr 20 = wrap32 (88 + len lm).
Proof. repeat split; descriptor. Qed.

Lemma authenticate_header_domain :
  field_len hdr 28 = wrap16 (len domain)
  /\ field_maxlen hdr 28 = wrap16 (len domain)
  /\ field_offset hdr 28 = wrap32 (88 + len lm + len nt).
Proof. repeat split; descriptor. Qed.

Lemma authenticate_header_user :
  field_len hdr 36 = wrap16 (len user)
  /\ field_maxlen hdr 36 = wrap16 (len user)
  /\ field_offset hdr 36 = wrap32 (88 + len lm + len nt + len domain).
Proof. repeat split; descriptor. Qed.

Lemma authenticate_header_workstation :
  field_len hdr 44 = wrap16 (len workstation)
  /\ field_maxlen hdr 44 = wrap16 (len workstation)
  /\ field_offset hdr 44
     = wrap32 (88 + len lm + len nt + len domain + len user).
Proof. repeat split; descriptor. Qed.

End Header.

(** The emitted message: header and payload with the MIC field
    overwritten by [src]. *)
Lemma slice_emitted_low (hdr payload src : bytes) (a b : nat) :
  length hdr = 88%nat -> (b <= 72)%nat ->
  slice a b (copy (hdr ++ payload) 72 88 src) = slice a b hdr.
Proof.
  intros Hl Hb.
  rewrite slice_copy_other by (rewrite ?length_app; lia).
  apply slice_app_l. lia.
Qed.

Lemma slice_emitted_high (hdr payload src : bytes) (a b : nat) :
  length hdr = 88%nat -> (88 <= a)%nat ->
  slice a b (copy (hdr ++ payload) 72 88 src) = slice a b (hdr ++ payload).
Proof.
  intros Hl Ha. apply slice_copy_other; rewrite ?length_app; lia.
Qed.

Section Emitted.
Context `{Constants} `{Strings} `{Unicode.Helpers}.

(** The MIC field of every AUTHENTICATE message that AcceptSecContext
    returns is 16 zero bytes: [hash.Sum] appends the digest to the
    zeroed field it is given, and [copy] keeps the first 16 bytes. *)
Lemma AcceptSecContext_mic_zero (sc : bytes) (n n' : Unicode.NtlmProvider) (out : bytes) :
  Unicode.AcceptSecContext sc n = (Ok out, n') ->
  slice 72 88 out = make 16.
Proof.
  intros Hrun.
  apply AcceptSecContext_Ok in Hrun
    as (targetName & n0 & lm & n1 & nt & n2 & _ & _ & _ & _ & _ & _ & _ & _ & Hout).
  cbv zeta in Hout. rewrite Hout.
  rewrite slice_copy_same.
  - rewrite authenticate_header_mic. apply firstn_make_app.
  - rewrite length_app, length_authenticate_header. lia.
  - rewrite length_app, authenticate_header_mic, length_make. lia.
Qed.

(** C9. In the AUTHENTICATE message of a successful AcceptSecContext
    the domain, user and workstation fields are the [ToUnicode]
    encodings of the [strings.ToUpper] forms of the caller's strings:
    each lies in the payload at its running offset after the LM and NT
    responses, and its descriptor holds that offset and its length (as
    uint32 and uint16). *)
Theorem AcceptSecContext_uppercased_names
    (sc : bytes) (n n' : Unicode.NtlmProvider) (out : bytes) :
  preserves_identity ->
  Unicode.AcceptSecContext sc n = (Ok out, n') ->
  let domain := ToUnicode (ToUpper (Unicode.Domain n)) in
  let user := ToUnicode (ToUpper (Unicode.User n)) in
  let workstation := ToUnicode (ToUpper (Unicode.Workstation n)) in
  exists lm nt : bytes,
    let o := (88 + length lm + length nt)%nat in
    skipn 88 out = lm ++ nt ++ domain ++ user ++ workstation
                     ++ Unicode.RandomSessionKey n'
    /\ (field_len out 12 = wrap16 (len lm) /\ field_offset out 12 = wrap32 88)
    /\ (field_len out 20 = wrap16 (len nt)
        /\ field_offset out 20 = wrap32 (88 + len lm))
    /\ (slice o (o + length domain) out = domain
        /\ field_len out 28 = wrap16 (len domain)
        /\ field_maxlen out 28 = wrap16 (len domain)
        /\ field_offset out 28 = wrap32 (Z.of_nat o))
    /\ (slice (o + length domain) (o + length domain + length user) out = user
        /\ field_len out 36 = wrap16 (len user)
        /\ field_maxlen out 36 = wrap16 (len user)
        /\ field_offset out 36 = wrap32 (Z.of_nat (o + length domain)))
    /\ (slice (o + length domain + length user)
              (o + length domain + length user + length workstation) out
        = workstation
        /\ field_len out 44 = wrap16 (len workstation)
        /\ field_maxlen out 44 = wrap16 (len workstation)
        /\ field_offset out 44
           = wrap32 (Z.of_nat (o + length domain + length user))).
Proof.
  intros [Hplm Hpnt] Hrun.
  apply AcceptSecContext_Ok in Hrun
    as (targetName & n0 & lm & n1 & nt & n2 & Hlm & Hnt & Hid0 & Hid' & Hrsk
        & _ & _ & _ & Hout).
  assert (Hid : identity n2 = identity n).
  { specialize (Hpnt targetName n1). rewrite Hnt in Hpnt. cbn [snd] in Hpnt.
    specialize (Hplm n0). rewrite Hlm in Hplm. cbn [snd] in Hplm.
    congruence. }
  unfold identity in Hid. injection Hid as Hd Hu Hw.
  rewrite Hd, Hu, Hw, <- Hrsk in Hout. clear Hd Hu Hw Hid0 Hid' Hrsk.
  cbv zeta in Hout. intros domain0 user0 workstation0.
  subst domain0 user0 workstation0.
  set (domain := ToUnicode (ToUpper (Unicode.Domain n))) in *.
  set (user := ToUnicode (ToUpper (Unicode.User n))) in *.
  set (workstation := ToUnicode (ToUpper (Unicode.Workstation n))) in *.
  set (rsk := Unicode.RandomSessionKey n') in *.
  set (flags := Unicode.NegotiateFlags n2) in *.
  pose proof (length_authenticate_header lm nt domain user workstation rsk flags) as Hl.
  set (hdr := authenticate_header lm nt domain user workstation rsk flags) in *.
  exists lm, nt. intros o.
  pose proof (authenticate_header_lm lm nt domain user workstation rsk flags) as Flm.
  pose proof (authenticate_header_nt lm nt domain user workstation rsk flags) as Fnt.
  pose proof (authenticate_header_domain lm nt domain user workstation rsk flags) as Fd.
  pose proof (authenticate_header_user lm nt domain user workstation rsk flags) as Fu.
  pose proof (authenticate_header_workstation lm nt domain user workstation rsk flags)
    as Fw.
  fold hdr in Flm, Fnt, Fd, Fu, Fw.
  assert (Hfl : forall p, (p + 8 <= 72)%nat ->
            field_len out p = field_len hdr p
            /\ field_maxlen out p = field_maxlen hdr p
            /\ field_offset out p = field_offset hdr p).
  { intros p Hp. unfold field_len, field_maxlen, field_offset. rewrite Hout.
    rewrite !slice_emitted_low by (exact Hl || lia). auto. }
  assert (Hhigh : forall a b, (88 <= a)%nat ->
            slice a b out
            = slice a b (hdr ++ lm ++ nt ++ domain ++ user ++ workstation ++ rsk)).
  { intros a b Ha. rewrite Hout. apply slice_emitted_high; [exact Hl | exact Ha]. }
  destruct (Hfl 12%nat) as (L1 & _ & L2); [lia |].
  destruct (Hfl 20%nat) as (L3 & _ & L4); [lia |].
  destruct (Hfl 28%nat) as (L5 & L6 & L7); [lia |].
  destruct (Hfl 36%nat) as (L8 & L9 & L10); [lia |].
  destruct (Hfl 44%nat) as (L11 & L12 & L13); [lia |].
  rewrite L1, L2, L3, L4, L5, L6, L7, L8, L9, L10, L11, L12, L13.
  destruct Flm as (F1 & _ & F2). destruct Fnt as (F3 & _ & F4).
  destruct Fd as (F5 & F6 & F7). destruct Fu as (F8 & F9 & F10).
  destruct Fw as (F11 & F12 & F13).
  rewrite !Hhigh by (unfold o; lia).
  split.
  { rewrite Hout, skipn_copy by (rewrite ?length_app; lia).
    rewrite skipn_app, skipn_all2, Hl by lia. reflexivity. }
  split; [split; assumption |]. split; [split; assumption |].
  unfold len in F7, F10, F13.
  split; [| split].
  - split; [| split; [assumption | split; [assumption |]]].
    + replace (hdr ++ lm ++ nt ++ domain ++ user ++ workstation ++ rsk)
        with ((hdr ++ lm ++ nt) ++ domain ++ (user ++ workstation ++ rsk))
        by (rewrite <- !app_assoc; reflexivity).
      replace o with (length (hdr ++ lm ++ nt))
        by (unfold o; rewrite !length_app, Hl; lia).
      apply slice_app_mid.
    + rewrite F7. f_equal. unfold o. lia.
  - split; [| split; [assumption | split; [assumption |]]].
    + replace (hdr ++ lm ++ nt ++ domain ++ user ++ workstation ++ rsk)
        with ((hdr ++ lm ++ nt ++ domain) ++ user ++ (workstation ++ rsk))
        by (rewrite <- !app_assoc; reflexivity).
      replace (o + length domain)%nat
        with (length (hdr ++ lm ++ nt ++ domain))
        by (unfold o; rewrite !length_app, Hl; lia).
      apply slice_app_mid.
    + rewrite F10. f_equal. unfold o. lia.
  - split; [| split; [assumption | split; [assumption |]]].
    + replace (hdr ++ lm ++ nt ++ domain ++ user ++ workstation ++ rsk)
        with ((hdr ++ lm ++ nt ++ domain ++ user) ++ workstation ++ rsk)
        by (rewrite <- !app_assoc; reflexivity).
      replace (o + length domain + length user)%nat
        with (length (hdr ++ lm ++ nt ++ domain ++ user))
        by (unfold o; rewrite !length_app, Hl; lia).
      apply slice_app_mid.
    + rewrite F13. f_equal. unfold o. lia.
Qed.

End Emitted.

(** ** The provider on the reference environment *)

Section ReferenceRuns.
#[local] Existing Instance Reference.constants.
#[local] Existing Instance Reference.strings.
#[local] Existing Instance Reference.helpers.

Lemma Reference_preserves_identity :
  @preserves_identity Reference.helpers.
Proof.
  split.
  - intros n. reflexivity.
  - intros t n. cbn [Unicode.NewNtChallengeResponse Reference.helpers].
    unfold Reference.NewNtChallengeResponse.
    destruct (Unicode.Hash n); [reflexivity |].
    destruct (Unicode.TargetInfo n); reflexivity.
Qed.

(** C1. On the reference run (client, CHALLENGE [Reference.challenge])
    AcceptSecContext succeeds and the MIC field of the message it
    returns is 16 zero bytes.  It is not the HMAC-MD5 under the
    exported session key of NEGOTIATE ++ CHALLENGE ++ AUTHENTICATE with
    the MIC zeroed, and not the HMAC of the two messages the code does
    hash (NEGOTIATE ++ AUTHENTICATE) either. *)
Theorem AcceptSecContext_mic_left_zero :
  exists out n',
    Unicode.AcceptSecContext Reference.challenge Reference.negotiated = (Ok out, n')
    /\ slice 72 88 out = make 16
    /\ Crypto.hmac_md5 (Unicode.ExportedSessionKey n')
         (Unicode.NegotiateMessage n' ++ Reference.challenge
            ++ copy out 72 88 (make 16))
       <> slice 72 88 out
    /\ Crypto.hmac_md5 (Unicode.ExportedSessionKey n')
         (Unicode.NegotiateMessage n' ++ copy out 72 88 (make 16))
       <> slice 72 88 out.
Proof.
  eexists. eexists. split; [vm_compute; reflexivity |].
  split; [vm_compute; reflexivity |].
  split; vm_compute; discriminate.
Qed.

(** C2, counterexample.  With a domain and a workstation the Unicode
    provider sends the default flags plus the two supplied bits, and
    the OEM provider in OEM mode sends the caller's flags plus the OEM
    bits: in both the flags field differs from the flags requested. *)
Lemma InitSecContext_flags_counterexample :
  (exists msg n',
      Unicode.InitSecContext Reference.client = (Ok msg, n')
      /\ Uint32 (slice 12 16 msg) <> requested_flags Reference.client)
  /\ (exists msg m',
      Oem.InitSecContext Reference.oem_client = (Ok msg, m')
      /\ Uint32 (slice 12 16 msg) <> oem_requested_flags Reference.oem_client).
Proof.
  split; eexists; eexists; (split; [vm_compute; reflexivity |]);
    vm_compute; discriminate.
Qed.

Lemma InitSecContext_flags_field_witness :
  (exists msg n', Unicode.InitSecContext Reference.client = (Ok msg, n')
      /\ Unicode.NegotiateFlags n' = negotiated_flags Reference.client
      /\ Uint32 (slice 12 16 msg) = negotiated_flags Reference.client)
  /\ (exists msg m', Oem.InitSecContext Reference.oem_client = (Ok msg, m')
      /\ Oem.NegotiateFlags m' = oem_negotiated_flags Reference.oem_client
      /\ Uint32 (slice 12 16 msg) = oem_negotiated_flags Reference.oem_client).
Proof.
  apply (@InitSecContext_flags_field Reference.constants Reference.strings
           Reference.client Reference.oem_client).
  - unfold is_uint32. vm_compute. split; [discriminate | reflexivity].
  - unfold is_uint32. vm_compute. split; [discriminate | reflexivity].
Defined.

Lemma AcceptSecContext_short_buffer_witness :
  Unicode.AcceptSecContext [1; 2; 3] Reference.negotiated
    = (Err (errorString "invalid challenge message length"), Reference.negotiated)
  /\ spec_error_kind (errorString "invalid challenge message length")
     = Some MalformedMessage.
Proof.
  apply (@AcceptSecContext_short_buffer Reference.constants Reference.strings
           Reference.helpers [1; 2; 3] Reference.negotiated).
  cbn [length]. lia.
Defined.

Lemma AcceptSecContext_bad_header_witness :
  exists e,
    Unicode.AcceptSecContext (repeat 0 48) Reference.negotiated
      = (Err e, Reference.negotiated)
    /\ spec_error_kind e = Some ProtocolMismatch.
Proof.
  apply (@AcceptSecContext_bad_header Reference.constants Reference.strings
           Reference.helpers (repeat 0 48) Reference.negotiated).
  - rewrite repeat_length. lia.
  - left. vm_compute. discriminate.
Defined.

Lemma AcceptSecContext_missing_flags_witness :
  Unicode.AcceptSecContext (Reference.challenge_with 0xe2898211) Reference.negotiated
    = (Err (errorString "invalid negotiate flags"), Reference.negotiated)
  /\ spec_error_kind (errorString "invalid negotiate flags") = Some ProtocolMismatch.
Proof.
  apply (@AcceptSecContext_missing_flags Reference.constants Reference.strings
           Reference.helpers (Reference.challenge_with 0xe2898211)
           Reference.negotiated (Reference.utf16le "DOM")).
  - vm_compute. lia.
  - vm_compute. reflexivity.
  - vm_compute. reflexivity.
  - vm_compute. reflexivity.
  - left. vm_compute. reflexivity.
Defined.



Lemma GetMIC_sequence_numbers_witness :
  exists sigs n',
    GetMIC_all [[1]; [2]; [3]] Reference.established = Some (sigs, n')
    /\ length sigs = 3%nat
    /\ (forall i, (i < 3)%nat -> signature_seq (nth i sigs []) = Z.of_nat i)
    /\ Unicode.SequenceNumber n' = wrap32 3.
Proof.
  apply (@GetMIC_sequence_numbers Reference.constants [[1]; [2]; [3]]
           Reference.established).
  - vm_compute. discriminate.
  - right. vm_compute. discriminate.
  - vm_compute. reflexivity.
  - cbn [length]. lia.
Defined.

(** C7, counterexample.  The counter is a uint32: on an established
    session with NegotiateSign and counter 0, in a run of 2^32 + 1
    calls the last signature carries the sequence number of the first
    one, 0.  And on a session with NegotiateSign and key exchange whose
    client cipher was never created, the first call already panics and
    no signature is made. *)
Lemma GetMIC_sequence_counterexample :
  (Z.land (Unicode.NegotiateFlags Reference.signer_established) NegotiateSign <> 0
   /\ Unicode.SequenceNumber Reference.signer_established = 0
   /\ exists sigs n',
        GetMIC_all Reference.many_messages Reference.signer_established
          = Some (sigs, n')
        /\ signature_seq (nth 0 sigs []) = 0
        /\ signature_seq (nth (Z.to_nat 4294967296) sigs []) = 0)
  /\ (Z.land (Unicode.NegotiateFlags Reference.negotiated) NegotiateSign <> 0
      /\ Unicode.SequenceNumber Reference.negotiated = 0
      /\ GetMIC_all [[1; 2; 3]] Reference.negotiated = None).
Proof.
  assert (Hs : Z.land (Unicode.NegotiateFlags Reference.signer_established)
                 NegotiateSign <> 0) by (vm_compute; discriminate).
  assert (H0 : Unicode.SequenceNumber Reference.signer_established = 0)
    by (vm_compute; reflexivity).
  assert (Hc : can_sign Reference.signer_established)
    by (left; vm_compute; reflexivity).
  split.
  - split; [exact Hs |]. split; [exact H0 |].
    destruct (GetMIC_all_sequence Reference.many_messages
                Reference.signer_established Hs Hc)
      as (sigs & n' & Hrun & _ & _ & Hith).
    { rewrite H0. unfold is_uint32. lia. }
    exists sigs, n'. split; [exact Hrun |].
    assert (Hlen : length Reference.many_messages = Z.to_nat 4294967297).
    { unfold Reference.many_messages. apply repeat_length. }
    split.
    + rewrite Hith by (rewrite Hlen; lia). rewrite H0. reflexivity.
    + rewrite Hith by (rewrite Hlen; lia). rewrite H0, Z2Nat.id by lia. reflexivity.
  - split; [vm_compute; discriminate |]. split; vm_compute; reflexivity.
Qed.

Lemma GetMIC_without_sign_witness :
  Unicode.GetMIC [1; 2; 3] Reference.client = Some ([], Reference.client)
  /\ Oem.GetMIC [1; 2; 3] Reference.oem_client = Some ([], Reference.oem_client).
Proof.
  apply (@GetMIC_without_sign Reference.constants [1; 2; 3]
           Reference.client Reference.oem_client).
  - vm_compute. reflexivity.
  - vm_compute. reflexivity.
Defined.

Lemma AcceptSecContext_uppercased_names_witness :
  preserves_identity
  /\ exists out n',
    Unicode.AcceptSecContext Reference.challenge Reference.negotiated = (Ok out, n')
    /\ let domain := ToUnicode (ToUpper (Unicode.Domain Reference.negotiated)) in
       let user := ToUnicode (ToUpper (Unicode.User Reference.negotiated)) in
       let workstation :=
         ToUnicode (ToUpper (Unicode.Workstation Reference.negotiated)) in
       exists lm nt : bytes,
         let o := (88 + length lm + length nt)%nat in
         skipn 88 out = lm ++ nt ++ domain ++ user ++ workstation
                          ++ Unicode.RandomSessionKey n'
         /\ (field_len out 12 = wrap16 (len lm) /\ field_offset out 12 = wrap32 88)
         /\ (field_len out 20 = wrap16 (len nt)
             /\ field_offset out 20 = wrap32 (88 + len lm))
         /\ (slice o (o + length domain) out = domain
             /\ field_len out 28 = wrap16 (len domain)
             /\ field_maxlen out 28 = wrap16 (len domain)
             /\ field_offset out 28 = wrap32 (Z.of_nat o))
         /\ (slice (o + length domain) (o + length domain + length user) out = user
             /\ field_len out 36 = wrap16 (len user)
             /\ field_maxlen out 36 = wrap16 (len user)
             /\ field_offset out 36 = wrap32 (Z.of_nat (o + length domain)))
         /\ (slice (o + length domain + length user)
                   (o + length domain + length user + length workstation) out
             = workstation
             /\ field_len out 44 = wrap16 (len workstation)
             /\ field_maxlen out 44 = wrap16 (len workstation)
             /\ field_offset out 44
                = wrap32 (Z.of_nat (o + length domain + length user))).
Proof.
  split; [exact Reference_preserves_identity |].
  assert (Hrun : exists out n',
    Unicode.AcceptSecContext Reference.challenge Reference.negotiated = (Ok out, n'))
    by (eexists; eexists; vm_compute; reflexivity).
  destruct Hrun as (out & n' & Hrun).
  exists out, n'. split; [exact Hrun |].
  exact (@AcceptSecContext_uppercased_names Reference.constants
           Reference.strings Reference.helpers Reference.challenge
           Reference.negotiated n' out Reference_preserves_identity Hrun).
Defined.

(** The names as they appear in the reference AUTHENTICATE message:
    "Domain", "User" and "COMPUTER" in upper case. *)
Example reference_names_uppercased :
  exists out n',
    Unicode.AcceptSecContext Reference.challenge Reference.negotiated = (Ok out, n')
    /\ slice 184 196 out = Reference.utf16le "DOMAIN"
    /\ slice 196 204 out = Reference.utf16le "USER"
    /\ slice 204 220 out = Reference.utf16le "COMPUTER".
Proof.
  eexists. eexists. split; [vm_compute; reflexivity |].
  repeat split; vm_compute; reflexivity.
Qed.

Lemma SessionKey_returns_field_witness :
  (Unicode.SessionKey Reference.client = Unicode.ExportedSessionKey Reference.client
   /\ Oem.SessionKey Reference.oem_client
      = Oem.ExportedSessionKey Reference.oem_client)
  /\ (Unicode.SessionKey Reference.client = []
      /\ Unicode.SessionKey (snd (Unicode.InitSecContext Reference.client)) = [])
  /\ (Oem.SessionKey Reference.oem_client = []
      /\ Oem.SessionKey (snd (Oem.InitSecContext Reference.oem_client)) = []).
Proof.
  pose proof (@SessionKey_returns_field Reference.constants Reference.strings
                Reference.client Reference.oem_client) as (Hf & Hu & Ho).
  split; [exact Hf |]. split.
  - apply Hu. reflexivity.
  - apply Ho. reflexivity.
Defined.

End ReferenceRuns.

(** * Further properties of the provider *)

(** ** More on copies *)

(** Only the bytes that fit are copied: a shorter destination window
    that still holds [src] gives the same buffer. *)
Lemma copy_window (dst src : bytes) (lo hi hi' : nat) :
  (length src <= hi' - lo)%nat -> (hi' <= hi)%nat ->
  copy dst lo hi src = copy dst lo hi' src.
Proof.
  intros Hs Hh. unfold copy.
  rewrite !Nat.min_r by lia. reflexivity.
Qed.

Lemma slice_make (a b n : nat) :
  (b <= n)%nat -> slice a b (make n) = make (b - a).
Proof.
  intros Hb. apply nth_ext with (d := 0) (d' := 0).
  - rewrite length_slice, length_make by (rewrite length_make; lia). reflexivity.
  - intros i Hi. rewrite length_slice in Hi by (rewrite length_make; lia).
    rewrite nth_slice by exact Hi. unfold make. rewrite !nth_repeat. reflexivity.
Qed.

Lemma Uint16_zero : Uint16 (make 2) = 0.
Proof. reflexivity. Qed.

Lemma Uint32_zero : Uint32 (make 4) = 0.
Proof. reflexivity. Qed.

(** Reads a descriptor component that the last matching write put
    there, in a buffer of [n] bytes. *)
Ltac read_back n :=
  peel n;
  first
    [ match goal with |- Uint16 (slice ?lo _ (PutUint16 ?b _ _)) = _ =>
        rewrite (slice_PutUint16_same b lo)
          by (assert (Hl : length b = n) by auto 80 with buf; rewrite Hl; lia);
        rewrite Uint16_le16; apply wrap16_idem end
    | match goal with |- Uint32 (slice ?lo _ (PutUint32 ?b _ _)) = _ =>
        rewrite (slice_PutUint32_same b lo)
          by (assert (Hl : length b = n) by auto 80 with buf; rewrite Hl; lia);
        rewrite Uint32_le32; apply wrap32_idem end
    | match goal with |- Uint16 (slice ?a ?b (make _)) = _ =>
        rewrite slice_make by lia; exact Uint16_zero end
    | match goal with |- Uint32 (slice ?a ?b (make _)) = _ =>
        rewrite slice_make by lia; exact Uint32_zero end ].

(** ** The NEGOTIATE header *)

Section NegotiateHeader.
Context `{Constants}.
Variable flags : Z.
Variables domain workstation : option bytes.

Local Notation "'hdr'" := (negotiate_header flags domain workstation).

Lemma length_negotiate_header : length hdr = 40%nat.
Proof.
  unfold negotiate_header. cbv zeta.
  destruct domain, workstation; auto 80 with buf.
Qed.

Lemma negotiate_header_type : Uint32 (slice 8 12 hdr) = 1.
Proof.
  unfold negotiate_header. cbv zeta.
  destruct domain, workstation; read_back 40%nat.
Qed.

Lemma negotiate_header_flags : Uint32 (slice 12 16 hdr) = wrap32 flags.
Proof.
  unfold negotiate_header. cbv zeta.
  destruct domain, workstation; read_back 40%nat.
Qed.

Lemma negotiate_header_version :
  length ClientVersion = 8%nat -> slice 32 40 hdr = ClientVersion.
Proof.
  intros Hv. unfold negotiate_header. cbv zeta.
  destruct domain, workstation;
    (rewrite slice_copy_same;
     [ apply firstn_all2; lia
     | match goal with |- (_ <= _ <= length ?b)%nat =>
         assert (Hl : length b = 40%nat) by auto 80 with buf; rewrite Hl; lia end
     | lia ]).
Qed.

Lemma negotiate_header_signature :
  length Signature = 8%nat -> slice 0 8 hdr = Signature.
Proof.
  intros Hs. unfold negotiate_header. cbv zeta.
  rewrite (copy_window (make 40) Signature 0 40 8) by lia.
  destruct domain, workstation; peel 40%nat;
    (rewrite slice_copy_same;
     [ apply firstn_all2; lia | rewrite length_make; lia | lia ]).
Qed.

Lemma negotiate_header_domain :
  length Signature = 8%nat ->
  read_descriptor hdr 16
  = descriptor_of (is_described domain) (name_bytes domain) 40.
Proof.
  intros Hs. unfold negotiate_header, read_descriptor, descriptor_of,
    field_len, field_maxlen, field_offset. cbv zeta.
  rewrite (copy_window (make 40) Signature 0 40 8) by lia.
  cbn [Nat.add].
  destruct domain, workstation; cbn [name_bytes is_described];
    (f_equal; [f_equal |]); read_back 40%nat.
Qed.

Lemma negotiate_header_workstation :
  length Signature = 8%nat ->
  read_descriptor hdr 24
  = descriptor_of (is_described workstation) (name_bytes workstation)
      (40 + len (name_bytes domain)).
Proof.
  intros Hs. unfold negotiate_header, read_descriptor, descriptor_of,
    field_len, field_maxlen, field_offset. cbv zeta.
  rewrite (copy_window (make 40) Signature 0 40 8) by lia.
  cbn [Nat.add].
  destruct domain, workstation; cbn [name_bytes is_described];
    (f_equal; [f_equal |]); try read_back 40%nat.
  all: rewrite Z.add_0_r; read_back 40%nat.
Qed.

End NegotiateHeader.

(** ** InitSecContext, whole message *)

Section NegotiateMessage.
Context `{Constants} `{Strings}.

(** The NEGOTIATE message of the Unicode provider for the session [n]. *)
Local Notation "'negotiate_of' n" :=
  (negotiate_header (negotiated_flags n)
     (described_name (Unicode.Domain n)) (described_name (Unicode.Workstation n))
   ++ supplied_name (Unicode.Domain n) ++ supplied_name (Unicode.Workstation n))
  (at level 10, n at level 9).

Local Notation "'oem_negotiate_of' m" :=
  (negotiate_header (oem_negotiated_flags m)
     (oem_described_name (Oem.IsOEM m) (Oem.Domain m))
     (oem_described_name (Oem.IsOEM m) (Oem.Workstation m))
   ++ oem_supplied_name (Oem.IsOEM m) (Oem.Domain m)
   ++ oem_supplied_name (Oem.IsOEM m) (Oem.Workstation m))
  (at level 10, m at level 9).

Lemma InitSecContext_eq (n : Unicode.NtlmProvider) :
  Unicode.InitSecContext n
  = (Ok (negotiate_of n),
     Unicode.set_NegotiateMessage (negotiate_of n)
       (Unicode.set_NegotiateFlags (negotiated_flags n) n)).
Proof.
  unfold Unicode.InitSecContext, negotiated_flags, requested_flags, supplied_bits,
    negotiate_header, described_name, supplied_name.
  destruct (is_empty (Unicode.Domain n)) eqn:Hd;
    destruct (is_empty (Unicode.Workstation n)) eqn:Hw;
    cbn [negb Unicode.Domain Unicode.Workstation Unicode.set_NegotiateFlags
         Unicode.NegotiateMessage Unicode.set_NegotiateMessage];
    rewrite ?Hd, ?Hw; cbn [negb app];
    rewrite ?Z.lor_0_r, ?Z.lor_0_l, ?Z.lor_assoc, ?app_nil_r;
    reflexivity.
Qed.

Lemma Oem_InitSecContext_eq (m : Oem.NtlmProvider) :
  Oem.InitSecContext m
  = (Ok (oem_negotiate_of m),
     Oem.set_NegotiateMessage (oem_negotiate_of m)
       (Oem.set_NegotiateFlags (oem_negotiated_flags m) m)).
Proof.
  unfold Oem.InitSecContext, oem_negotiated_flags, oem_requested_flags, oem_bits,
    negotiate_header, oem_described_name, oem_supplied_name.
  destruct m as [us pw hs dom ws oem tn nf sbk kek rsk esk csk ssk sh ch sq scc cc nm am ti].
  cbn [Oem.Domain Oem.Workstation Oem.IsOEM Oem.NegotiateFlags].
  destruct (nf =? 0) eqn:Hz; destruct oem; destruct (is_empty dom) eqn:Hd;
    destruct (is_empty ws) eqn:Hw;
    repeat progress
      (cbn [negb andb app Oem.Domain Oem.Workstation Oem.IsOEM Oem.NegotiateFlags
            Oem.set_NegotiateFlags Oem.NegotiateMessage Oem.set_NegotiateMessage];
       rewrite ?Hd, ?Hw);
    rewrite ?Z.lor_0_r, ?Z.lor_0_l, ?Z.lor_assoc, ?app_nil_r;
    reflexivity.
Qed.

End NegotiateMessage.

Lemma read_descriptor_app_l (a b : bytes) (pos : nat) :
  (pos + 8 <= length a)%nat ->
  read_descriptor (a ++ b) pos = read_descriptor a pos.
Proof.
  intros Hp. unfold read_descriptor, field_len, field_maxlen, field_offset.
  rewrite !slice_app_l by lia. reflexivity.
Qed.

Lemma slice_app_first (a b c : bytes) (n : nat) :
  length a = n -> slice n (n + length b) (a ++ b ++ c) = b.
Proof. intros <-. apply slice_app_mid. Qed.

Lemma slice_app_second (a b c : bytes) (n : nat) :
  length a = n ->
  slice (n + length b) (n + length b + length c) (a ++ b ++ c) = c.
Proof.
  intros <-.
  replace (a ++ b ++ c) with ((a ++ b) ++ c ++ []) by (rewrite app_nil_r, app_assoc; reflexivity).
  replace (length a + length b)%nat with (length (a ++ b)) by apply length_app.
  apply slice_app_mid.
Qed.

Section InitLayout.
Context `{Constants} `{Strings}.

Lemma described_supplied (s : string) :
  is_described (described_name s) = negb (is_empty s)
  /\ name_bytes (described_name s) = supplied_name s.
Proof. unfold described_name, supplied_name. destruct (is_empty s); split; reflexivity. Qed.

Lemma oem_described_supplied (oem : bool) (s : string) :
  is_described (oem_described_name oem s) = negb (is_empty s) && oem
  /\ name_bytes (oem_described_name oem s) = oem_supplied_name oem s.
Proof.
  unfold oem_described_name, oem_supplied_name.
  destruct (negb (is_empty s) && oem); split; reflexivity.
Qed.

(** X1. The NEGOTIATE message of both providers starts with the
    signature, carries message type 1 at offset 8 and the client
    version at offset 32, and is at least 40 bytes long, whatever the
    session holds. *)
Theorem InitSecContext_fixed_header
    (n : Unicode.NtlmProvider) (m : Oem.NtlmProvider) :
  length Signature = 8%nat ->
  length ClientVersion = 8%nat ->
  (exists msg n', Unicode.InitSecContext n = (Ok msg, n')
     /\ slice 0 8 msg = Signature
     /\ Uint32 (slice 8 12 msg) = 1
     /\ slice 32 40 msg = ClientVersion
     /\ (40 <= length msg)%nat)
  /\ (exists msg m', Oem.InitSecContext m = (Ok msg, m')
     /\ slice 0 8 msg = Signature
     /\ Uint32 (slice 8 12 msg) = 1
     /\ slice 32 40 msg = ClientVersion
     /\ (40 <= length msg)%nat).
Proof.
  intros Hs Hv. split.
  - eexists. eexists. split; [apply InitSecContext_eq |].
    rewrite !slice_app_l by (rewrite length_negotiate_header; lia).
    rewrite length_app, length_negotiate_header.
    split; [apply negotiate_header_signature; exact Hs |].
    split; [apply negotiate_header_type |].
    split; [apply negotiate_header_version; exact Hv | lia].
  - eexists. eexists. split; [apply Oem_InitSecContext_eq |].
    rewrite !slice_app_l by (rewrite length_negotiate_header; lia).
    rewrite length_app, length_negotiate_header.
    split; [apply negotiate_header_signature; exact Hs |].
    split; [apply negotiate_header_type |].
    split; [apply negotiate_header_version; exact Hv | lia].
Qed.

(** X2. The Unicode provider appends the [ToUnicode] form of the domain
    and then of the workstation, each only when the string is not
    empty, right after the 40-byte header; the descriptor of each name
    holds its length and offset, the descriptor of a name left out is
    zero, and the returned message is the one stored in the session. *)
Theorem InitSecContext_names (n : Unicode.NtlmProvider) :
  length Signature = 8%nat ->
  exists msg n',
    Unicode.InitSecContext n = (Ok msg, n')
    /\ Unicode.NegotiateMessage n' = msg
    /\ let d := supplied_name (Unicode.Domain n) in
       let w := supplied_name (Unicode.Workstation n) in
       length msg = (40 + length d + length w)%nat
       /\ slice 40 (40 + length d) msg = d
       /\ slice (40 + length d) (40 + length d + length w) msg = w
       /\ read_descriptor msg 16
          = descriptor_of (negb (is_empty (Unicode.Domain n))) d 40
       /\ read_descriptor msg 24
          = descriptor_of (negb (is_empty (Unicode.Workstation n))) w (40 + len d).
Proof.
  intros Hs. eexists. eexists. split; [apply InitSecContext_eq |].
  split; [reflexivity |]. cbv zeta.
  pose proof (length_negotiate_header (negotiated_flags n)
                (described_name (Unicode.Domain n))
                (described_name (Unicode.Workstation n))) as Hl.
  destruct (described_supplied (Unicode.Domain n)) as [Hd1 Hd2].
  destruct (described_supplied (Unicode.Workstation n)) as [Hw1 Hw2].
  split; [rewrite !length_app, Hl; lia |].
  split; [apply slice_app_first; exact Hl |].
  split; [apply slice_app_second; exact Hl |].
  rewrite !read_descriptor_app_l by (rewrite Hl; lia).
  rewrite negotiate_header_domain, negotiate_header_workstation by exact Hs.
  rewrite Hd1, Hd2, Hw1, Hw2. split; reflexivity.
Qed.

(** X3. The OEM provider appends the [StrToUTF16] form of the domain
    and of the workstation only in OEM mode (and only for a non-empty
    string); outside OEM mode neither name is sent and both descriptors
    stay zero. *)
Theorem Oem_InitSecContext_names (m : Oem.NtlmProvider) :
  length Signature = 8%nat ->
  exists msg m',
    Oem.InitSecContext m = (Ok msg, m')
    /\ Oem.NegotiateMessage m' = msg
    /\ let d := oem_supplied_name (Oem.IsOEM m) (Oem.Domain m) in
       let w := oem_supplied_name (Oem.IsOEM m) (Oem.Workstation m) in
       length msg = (40 + length d + length w)%nat
       /\ slice 40 (40 + length d) msg = d
       /\ slice (40 + length d) (40 + length d + length w) msg = w
       /\ read_descriptor msg 16
          = descriptor_of (negb (is_empty (Oem.Domain m)) && Oem.IsOEM m) d 40
       /\ read_descriptor msg 24
          = descriptor_of (negb (is_empty (Oem.Workstation m)) && Oem.IsOEM m)
              w (40 + len d).
Proof.
  intros Hs. eexists. eexists. split; [apply Oem_InitSecContext_eq |].
  split; [reflexivity |]. cbv zeta.
  pose proof (length_negotiate_header (oem_negotiated_flags m)
                (oem_described_name (Oem.IsOEM m) (Oem.Domain m))
                (oem_described_name (Oem.IsOEM m) (Oem.Workstation m))) as Hl.
  destruct (oem_described_supplied (Oem.IsOEM m) (Oem.Domain m)) as [Hd1 Hd2].
  destruct (oem_described_supplied (Oem.IsOEM m) (Oem.Workstation m)) as [Hw1 Hw2].
  split; [rewrite !length_app, Hl; lia |].
  split; [apply slice_app_first; exact Hl |].
  split; [apply slice_app_second; exact Hl |].
  rewrite !read_descriptor_app_l by (rewrite Hl; lia).
  rewrite negotiate_header_domain, negotiate_header_workstation by exact Hs.
  rewrite Hd1, Hd2, Hw1, Hw2. split; reflexivity.
Qed.

(** X4. Outside OEM mode the NEGOTIATE message of the OEM provider is
    the bare 40-byte header: a domain and a workstation set by the
    caller are not sent, their descriptors are zero, and the flags
    field holds the requested flags. *)
Theorem Oem_InitSecContext_without_oem (m : Oem.NtlmProvider) :
  Oem.IsOEM m = false ->
  length Signature = 8%nat ->
  exists msg m',
    Oem.InitSecContext m = (Ok msg, m')
    /\ length msg = 40%nat
    /\ read_descriptor msg 16 = (0, 0, 0)
    /\ read_descriptor msg 24 = (0, 0, 0)
    /\ Uint32 (slice 12 16 msg) = wrap32 (oem_requested_flags m).
Proof.
  intros Ho Hs. eexists. eexists. split; [apply Oem_InitSecContext_eq |].
  rewrite oem_negotiated_flags_plain by exact Ho.
  unfold oem_described_name, oem_supplied_name. rewrite Ho, !andb_false_r.
  rewrite !app_nil_r.
  split; [apply length_negotiate_header |].
  rewrite negotiate_header_domain, negotiate_header_workstation by exact Hs.
  split; [reflexivity |]. split; [reflexivity |].
  apply negotiate_header_flags.
Qed.

Lemma lor_twice (a b : Z) : Z.lor (Z.lor a b) b = Z.lor a b.
Proof. rewrite <- Z.lor_assoc, Z.lor_diag. reflexivity. Qed.

Lemma negotiated_flags_stable (n n' : Unicode.NtlmProvider) :
  Unicode.NegotiateFlags n' = negotiated_flags n ->
  Unicode.Domain n' = Unicode.Domain n ->
  Unicode.Workstation n' = Unicode.Workstation n ->
  negotiated_flags n' = negotiated_flags n.
Proof.
  intros Hf Hd Hw.
  unfold negotiated_flags at 1. unfold requested_flags at 1.
  unfold supplied_bits at 1. rewrite Hf, Hd, Hw. fold (supplied_bits n).
  destruct (Z.eqb_spec (negotiated_flags n) 0) as [Hz | Hz].
  - rewrite Hz. unfold negotiated_flags in Hz.
    apply Z.lor_eq_0_iff in Hz as [Hr Hb]. rewrite Hb, Z.lor_0_r.
    unfold requested_flags in Hr.
    destruct (Z.eqb_spec (Unicode.NegotiateFlags n) 0) as [Hnf | Hnf];
      [exact Hr | contradiction].
  - unfold negotiated_flags. apply lor_twice.
Qed.

Lemma oem_negotiated_flags_stable (m m' : Oem.NtlmProvider) :
  Oem.NegotiateFlags m' = oem_negotiated_flags m ->
  Oem.Domain m' = Oem.Domain m ->
  Oem.Workstation m' = Oem.Workstation m ->
  Oem.IsOEM m' = Oem.IsOEM m ->
  oem_negotiated_flags m' = oem_negotiated_flags m.
Proof.
  intros Hf Hd Hw Ho.
  unfold oem_negotiated_flags at 1. unfold oem_requested_flags at 1.
  unfold oem_bits at 1. rewrite Hf, Hd, Hw, Ho. fold (oem_bits m).
  destruct (Z.eqb_spec (oem_negotiated_flags m) 0) as [Hz | Hz].
  - rewrite Hz. unfold oem_negotiated_flags in Hz.
    apply Z.lor_eq_0_iff in Hz as [Hr Hb]. rewrite Hb, Z.lor_0_r.
    unfold oem_requested_flags in Hr.
    destruct (Z.eqb_spec (Oem.NegotiateFlags m) 0) as [Hnf | Hnf];
      [exact Hr | contradiction].
  - unfold oem_negotiated_flags. apply lor_twice.
Qed.

(** X5. InitSecContext can be repeated: a second call on the session
    the first call left returns the same NEGOTIATE message and leaves
    the same session, in both providers (the bits added by the first
    call are not added twice). *)
Theorem InitSecContext_idempotent
    (n : Unicode.NtlmProvider) (m : Oem.NtlmProvider) :
  Unicode.InitSecContext (snd (Unicode.InitSecContext n)) = Unicode.InitSecContext n
  /\ Oem.InitSecContext (snd (Oem.InitSecContext m)) = Oem.InitSecContext m.
Proof.
  split.
  - rewrite (InitSecContext_eq n). cbn [snd].
    rewrite InitSecContext_eq.
    rewrite (negotiated_flags_stable n) by reflexivity.
    reflexivity.
  - rewrite (Oem_InitSecContext_eq m). cbn [snd].
    rewrite Oem_InitSecContext_eq.
    rewrite (oem_negotiated_flags_stable m) by reflexivity.
    reflexivity.
Qed.

End InitLayout.

(** ** AcceptSecContext, every step of a successful run *)

Section AcceptSteps.
Context `{Constants} `{Strings} `{Unicode.Helpers}.

Lemma AcceptSecContext_steps (sc : bytes) (n n' : Unicode.NtlmProvider) (out : bytes) :
  Unicode.AcceptSecContext sc n = (Ok out, n') ->
  exists targetName targetInfo avpairs ti lm n1 nt n2 ssk csk sck ssck cc cs,
    challenge_checks sc n targetName
    /\ Unicode.extractFields (slice 40 48 sc) sc = Ok targetInfo
    /\ Unicode.NewAvPairs targetInfo = Ok avpairs
    /\ Unicode.NewTargetInformation avpairs = (ti, None)
    /\ Unicode.NewLMChallengeResponse
         (Unicode.set_TargetInfo ti (Unicode.set_ServerChallenge (slice 24 32 sc) n))
       = (lm, n1)
    /\ Unicode.NewNtChallengeResponse targetName n1 = (Ok nt, n2)
    /\ Unicode.signKey (Unicode.ExportedSessionKey n2) magic_server_signing
         (Unicode.NegotiateFlags n2) = (ssk, None)
    /\ Unicode.signKey (Unicode.ExportedSessionKey n2) magic_client_signing
         (Unicode.NegotiateFlags n2) = (csk, None)
    /\ Unicode.sealKey (Unicode.ExportedSessionKey n2) magic_client_sealing
         (Unicode.NegotiateFlags n2) = Ok sck
    /\ Unicode.sealKey (Unicode.ExportedSessionKey n2) magic_server_sealing
         (Unicode.NegotiateFlags n2) = Ok ssck
    /\ Crypto.NewCipher sck = Ok cc
    /\ Crypto.NewCipher ssck = Ok cs
    /\ n' = accepted_session out ssk csk cc cs n2
    /\ let domain := ToUnicode (ToUpper (Unicode.Domain n2)) in
       let user := ToUnicode (ToUpper (Unicode.User n2)) in
       let workstation := ToUnicode (ToUpper (Unicode.Workstation n2)) in
       let hdr := authenticate_header lm nt domain user workstation
                    (Unicode.RandomSessionKey n2) (Unicode.NegotiateFlags n2) in
       let payload := lm ++ nt ++ domain ++ user ++ workstation
                        ++ Unicode.RandomSessionKey n2 in
       out = copy (hdr ++ payload) 72 88
               (slice 72 88 hdr
                  ++ Crypto.hmac_md5 (Unicode.ExportedSessionKey n2)
                       (Unicode.NegotiateMessage n2 ++ hdr ++ payload)).
Proof.
  intros Hrun. unfold Unicode.AcceptSecContext in Hrun.
  destruct (Nat.ltb_spec (length sc) 48) as [Hlt | Hlen]; [discriminate |].
  destruct (bytes_eqb (slice 0 8 sc) Signature) eqn:Hsig; [| discriminate].
  apply bytes_eqb_eq in Hsig. cbn [negb] in Hrun.
  destruct (Z.eqb_spec (Uint32 (slice 8 12 sc)) MessageTypeNtLmChallenge)
    as [Hty | Hty]; [| discriminate].
  cbn [negb] in Hrun.
  bind_inv Hrun targetName n0 Hname.
  bind_skip Hrun.
  destruct (Z.eqb_spec (Z.land (Z.land (Unicode.NegotiateFlags n)
              (Uint32 (slice 20 24 sc))) RequestTarget) 0) as [Hrt | Hrt];
    [discriminate |].
  destruct (Z.eqb_spec (Z.land (Z.land (Unicode.NegotiateFlags n)
              (Uint32 (slice 20 24 sc))) NegotiateTargetInfo) 0) as [Hti | Hti];
    [discriminate |].
  cbn [orb] in Hrun.
  bind_skip Hrun.
  bind_inv Hrun targetInfo n0 Hinfo.
  bind_inv Hrun avpairs n0 Hpairs.
  destruct (Unicode.NewTargetInformation avpairs) as [ti err] eqn:Hnti.
  bind_skip Hrun.
  bind_inv Hrun u n0 Herr. subst err.
  bind_inv Hrun lm n1 Hlm.
  bind_inv Hrun nt n2 Hnt.
  do 6 bind_skip Hrun.
  do 4 bind_skip Hrun.
  match type of Hrun with context [Unicode.signKey ?k ?m ?f] =>
    destruct (Unicode.signKey k m f) as [ssk err1] eqn:Hssk end.
  bind_skip Hrun.
  bind_inv Hrun u1 n3 Herr1. subst err1.
  do 2 bind_skip Hrun.
  match type of Hrun with context [Unicode.signKey ?k ?m ?f] =>
    destruct (Unicode.signKey k m f) as [csk err2] eqn:Hcsk end.
  bind_skip Hrun.
  bind_inv Hrun u2 n3 Herr2. subst err2.
  do 2 bind_skip Hrun.
  bind_inv Hrun sck n3 Hsck.
  bind_inv Hrun ssck n3 Hssck.
  destruct (Crypto.NewCipher sck) as [cc | e] eqn:Hcc;
    [| bind_skip Hrun; discriminate].
  bind_skip Hrun.
  destruct (Crypto.NewCipher ssck) as [cs | e] eqn:Hcs;
    [| bind_skip Hrun; discriminate].
  bind_skip Hrun.
  apply gets_inv in Hrun as [-> ->].
  exists targetName, targetInfo, avpairs, ti, lm, n1, nt, n2, ssk, csk, sck, ssck, cc, cs.
  split; [unfold challenge_checks; auto 10 |].
  split; [exact Hinfo |]. split; [exact Hpairs |]. split; [exact Hnti |].
  split; [exact Hlm |]. split; [exact Hnt |].
  cbn [Unicode.AuthenticateMessage Unicode.set_AuthenticateMessage
    Unicode.set_ServerSigningKey Unicode.set_ClientSigningKey
    Unicode.set_ClientHandle Unicode.set_ServerHandle
    Unicode.ExportedSessionKey Unicode.NegotiateMessage
    Unicode.RandomSessionKey Unicode.NegotiateFlags Unicode.Domain
    Unicode.User Unicode.Workstation] in Hssk, Hcsk, Hsck, Hssck.
  split; [exact Hssk |]. split; [exact Hcsk |].
  split; [exact Hsck |]. split; [exact Hssck |].
  split; [exact Hcc |]. split; [exact Hcs |].
  cbv zeta. unfold accepted_session.
  cbn [Unicode.AuthenticateMessage Unicode.set_AuthenticateMessage
    Unicode.set_ServerSigningKey Unicode.set_ClientSigningKey
    Unicode.set_ClientHandle Unicode.set_ServerHandle
    Unicode.ExportedSessionKey Unicode.NegotiateMessage
    Unicode.RandomSessionKey Unicode.NegotiateFlags Unicode.Domain
    Unicode.User Unicode.Workstation].
  unfold authenticate_header. cbv zeta. cbn [app].
  rewrite <- !app_assoc.
  split; reflexivity.
Qed.

End AcceptSteps.

(** ** The AUTHENTICATE header, remaining fields *)

Section AuthenticateHeader.
Context `{Constants}.
Variables lm nt domain user workstation randomSessionKey : bytes.
Variable flags : Z.

Local Notation "'hdr'" :=
  (authenticate_header lm nt domain user workstation randomSessionKey flags).

Lemma authenticate_header_type : Uint32 (slice 8 12 hdr) = 3.
Proof.
  unfold authenticate_header, Unicode.putFields. cbv zeta. cbn [Nat.add].
  read_back 88%nat.
Qed.

Lemma authenticate_header_flags : Uint32 (slice 60 64 hdr) = wrap32 flags.
Proof.
  unfold authenticate_header, Unicode.putFields. cbv zeta. cbn [Nat.add].
  read_back 88%nat.
Qed.

Lemma authenticate_header_signature :
  length Signature = 8%nat -> slice 0 8 hdr = Signature.
Proof.
  intros Hs. unfold authenticate_header, Unicode.putFields. cbv zeta. cbn [Nat.add].
  peel 88%nat.
  rewrite slice_copy_same by (rewrite ?length_make; lia).
  apply firstn_all2. lia.
Qed.

Lemma authenticate_header_version :
  length ClientVersion = 8%nat -> slice 64 72 hdr = ClientVersion.
Proof.
  intros Hv. unfold authenticate_header, Unicode.putFields. cbv zeta. cbn [Nat.add].
  peel 88%nat.
  rewrite slice_copy_same.
  - apply firstn_all2. lia.
  - match goal with |- (_ <= _ <= length ?b)%nat =>
      assert (Hl : length b = 88%nat) by auto 80 with buf; rewrite Hl; lia end.
  - lia.
Qed.

Lemma authenticate_header_session_key :
  read_descriptor hdr 52
  = descriptor_of true randomSessionKey
      (88 + len lm + len nt + len domain + len user + len workstation).
Proof.
  unfold read_descriptor, descriptor_of, field_len, field_maxlen, field_offset,
    authenticate_header, Unicode.putFields. cbv zeta. cbn [Nat.add].
  (f_equal; [f_equal |]); read_back 88%nat.
Qed.

End AuthenticateHeader.

Lemma read_descriptor_emitted_low (hdr payload src : bytes) (pos : nat) :
  length hdr = 88%nat -> (pos + 8 <= 72)%nat ->
  read_descriptor (copy (hdr ++ payload) 72 88 src) pos = read_descriptor hdr pos.
Proof.
  intros Hl Hp. unfold read_descriptor, field_len, field_maxlen, field_offset.
  rewrite !slice_emitted_low by (exact Hl || lia). reflexivity.
Qed.

Section AuthenticateMessage.
Context `{Constants} `{Strings} `{Unicode.Helpers}.

(** X10. The AUTHENTICATE message of a successful AcceptSecContext
    starts with the signature, carries message type 3 at offset 8, the
    session's NegotiateFlags at offset 60 and the client version at
    offset 64; it is the message stored in the session. *)
Theorem AcceptSecContext_fixed_header
    (sc : bytes) (n n' : Unicode.NtlmProvider) (out : bytes) :
  length Signature = 8%nat ->
  length ClientVersion = 8%nat ->
  Unicode.AcceptSecContext sc n = (Ok out, n') ->
  slice 0 8 out = Signature
  /\ Uint32 (slice 8 12 out) = 3
  /\ Uint32 (slice 60 64 out) = wrap32 (Unicode.NegotiateFlags n')
  /\ slice 64 72 out = ClientVersion
  /\ Unicode.AuthenticateMessage n' = out.
Proof.
  intros Hs Hv Hrun.
  apply AcceptSecContext_steps in Hrun
    as (targetName & targetInfo & avpairs & ti & lm & n1 & nt & n2 & ssk & csk
        & sck & ssck & cc & cs & _ & _ & _ & _ & _ & _ & _ & _ & _ & _ & _ & _
        & Hn' & Hout).
  cbv zeta in Hout. subst n'.
  cbn [accepted_session Unicode.AuthenticateMessage Unicode.NegotiateFlags
       Unicode.set_ServerHandle Unicode.set_ClientHandle
       Unicode.set_ClientSigningKey Unicode.set_ServerSigningKey
       Unicode.set_AuthenticateMessage].
  match type of Hout with _ = copy (?h ++ _) _ _ _ =>
    assert (Hl : length h = 88%nat) by apply length_authenticate_header end.
  split; [| split; [| split; [| split; [| reflexivity]]]]; rewrite Hout;
    rewrite slice_emitted_low by (exact Hl || lia).
  - apply authenticate_header_signature. exact Hs.
  - apply authenticate_header_type.
  - apply authenticate_header_flags.
  - apply authenticate_header_version. exact Hv.
Qed.

(** X11. The AUTHENTICATE message ends with the session's
    RandomSessionKey (the encrypted session key); the descriptor at
    offset 52 holds its length and the offset where it starts. *)
Theorem AcceptSecContext_session_key_field
    (sc : bytes) (n n' : Unicode.NtlmProvider) (out : bytes) :
  Unicode.AcceptSecContext sc n = (Ok out, n') ->
  let key := Unicode.RandomSessionKey n' in
  (88 + length key <= length out)%nat
  /\ skipn (length out - length key) out = key
  /\ read_descriptor out 52
     = descriptor_of true key (Z.of_nat (length out - length key)).
Proof.
  intros Hrun.
  apply AcceptSecContext_steps in Hrun
    as (targetName & targetInfo & avpairs & ti & lm & n1 & nt & n2 & ssk & csk
        & sck & ssck & cc & cs & _ & _ & _ & _ & _ & _ & _ & _ & _ & _ & _ & _
        & Hn' & Hout).
  cbv zeta in Hout. subst n'.
  cbn [accepted_session Unicode.RandomSessionKey
       Unicode.set_ServerHandle Unicode.set_ClientHandle
       Unicode.set_ClientSigningKey Unicode.set_ServerSigningKey
       Unicode.set_AuthenticateMessage].
  set (domain := ToUnicode (ToUpper (Unicode.Domain n2))) in *.
  set (user := ToUnicode (ToUpper (Unicode.User n2))) in *.
  set (workstation := ToUnicode (ToUpper (Unicode.Workstation n2))) in *.
  set (rsk := Unicode.RandomSessionKey n2) in *.
  set (flags := Unicode.NegotiateFlags n2) in *.
  pose proof (length_authenticate_header lm nt domain user workstation rsk flags) as Hl.
  pose proof (authenticate_header_session_key lm nt domain user workstation rsk flags)
    as Hd.
  set (hdr := authenticate_header lm nt domain user workstation rsk flags) in *.
  assert (Hlen : length out
                 = (88 + length lm + length nt + length domain + length user
                    + length workstation + length rsk)%nat).
  { rewrite Hout, length_copy by (rewrite !length_app; lia).
    rewrite !length_app, Hl. lia. }
  split; [lia |]. split.
  - rewrite Hout at 2. rewrite skipn_copy by (rewrite ?length_app; lia).
    replace (hdr ++ lm ++ nt ++ domain ++ user ++ workstation ++ rsk)
      with ((hdr ++ lm ++ nt ++ domain ++ user ++ workstation) ++ rsk)
      by (rewrite <- !app_assoc; reflexivity).
    rewrite skipn_app, skipn_all2 by (rewrite !length_app, Hl; lia).
    replace (_ - _ - _)%nat with 0%nat by (rewrite !length_app, Hl; lia).
    reflexivity.
  - replace (read_descriptor out 52) with (read_descriptor hdr 52)
      by (rewrite Hout; symmetry; apply read_descriptor_emitted_low; [exact Hl | lia]).
    rewrite Hd. unfold descriptor_of, len. do 2 f_equal.
    clear Hout Hd. clearbody hdr domain user workstation rsk flags. lia.
Qed.

End AuthenticateMessage.

(** ** AcceptSecContext, what is accepted and what is refused *)

Lemma NewCipher_Ok_length (key : bytes) (c : Crypto.Cipher) :
  Crypto.NewCipher key = Ok c ->
  (1 <= length key <= 256)%nat /\ Crypto.rc4_i c = 0 /\ Crypto.rc4_j c = 0.
Proof.
  unfold Crypto.NewCipher.
  destruct (Nat.ltb_spec (length key) 1) as [Hl | Hl]; cbn [orb]; [discriminate |].
  destruct (Nat.ltb_spec 256 (length key)) as [Hh | Hh]; [discriminate |].
  destruct (fold_left _ _ _) as [s j]. intros Heq. inversion Heq.
  cbn [Crypto.rc4_i Crypto.rc4_j]. repeat split; lia.
Qed.

Section AcceptOutcomes.
Context `{Constants} `{Strings} `{Unicode.Helpers}.

(** X6. AcceptSecContext succeeds only on a CHALLENGE of at least 48
    bytes that starts with the signature, has message type 2, shares
    RequestTarget and NegotiateTargetInfo with the session's flags, and
    whose target-name and target-info descriptors and AV pairs
    decode. *)
Theorem AcceptSecContext_accepts_only_valid
    (sc : bytes) (n n' : Unicode.NtlmProvider) (out : bytes) :
  Unicode.AcceptSecContext sc n = (Ok out, n') ->
  (48 <= length sc)%nat
  /\ slice 0 8 sc = Signature
  /\ Uint32 (slice 8 12 sc) = 2
  /\ Z.land (Z.land (Unicode.NegotiateFlags n) (Uint32 (slice 20 24 sc)))
       RequestTarget <> 0
  /\ Z.land (Z.land (Unicode.NegotiateFlags n) (Uint32 (slice 20 24 sc)))
       NegotiateTargetInfo <> 0
  /\ (exists targetName, Unicode.extractFields (slice 12 20 sc) sc = Ok targetName)
  /\ (exists targetInfo avpairs ti,
        Unicode.extractFields (slice 40 48 sc) sc = Ok targetInfo
        /\ Unicode.NewAvPairs targetInfo = Ok avpairs
        /\ Unicode.NewTargetInformation avpairs = (ti, None)).
Proof.
  intros Hrun.
  apply AcceptSecContext_steps in Hrun
    as (targetName & targetInfo & avpairs & ti & lm & n1 & nt & n2 & ssk & csk
        & sck & ssck & cc & cs & Hchk & Hinfo & Hpairs & Hti & _).
  destruct Hchk as (Hlen & Hsig & Hty & Hname & Hrt & Hnti).
  repeat (split; [assumption |]).
  split; [exists targetName; exact Hname |].
  exists targetInfo, avpairs, ti. auto.
Qed.

(** X7. The header checks run in a fixed order and leave the session
    untouched: a wrong signature is reported as "invalid signature"
    whatever the message type; with the right signature a wrong type is
    "invalid message type"; with both right, an error of the
    target-name descriptor is returned as it is, before the flags are
    looked at. *)
Theorem AcceptSecContext_check_order
    (sc : bytes) (n : Unicode.NtlmProvider) (e : error) :
  (48 <= length sc)%nat ->
  (slice 0 8 sc <> Signature ->
     Unicode.AcceptSecContext sc n = (Err (errorString "invalid signature"), n))
  /\ (slice 0 8 sc = Signature -> Uint32 (slice 8 12 sc) <> 2 ->
     Unicode.AcceptSecContext sc n = (Err (errorString "invalid message type"), n))
  /\ (slice 0 8 sc = Signature -> Uint32 (slice 8 12 sc) = 2 ->
      Unicode.extractFields (slice 12 20 sc) sc = Err e ->
      Unicode.AcceptSecContext sc n = (Err e, n)).
Proof.
  intros Hlen. unfold Unicode.AcceptSecContext.
  destruct (Nat.ltb_spec (length sc) 48) as [Hlt | _]; [lia |].
  split; [| split].
  - intros Hsig.
    destruct (bytes_eqb (slice 0 8 sc) Signature) eqn:Heq; [| reflexivity].
    apply bytes_eqb_eq in Heq. contradiction.
  - intros Hsig Hty. apply bytes_eqb_eq in Hsig. rewrite Hsig. cbn [negb].
    destruct (Z.eqb_spec (Uint32 (slice 8 12 sc)) MessageTypeNtLmChallenge);
      [contradiction | reflexivity].
  - intros Hsig Hty Hname. apply bytes_eqb_eq in Hsig. rewrite Hsig, Hty.
    cbn [negb Z.eqb MessageTypeNtLmChallenge Pos.eqb].
    unfold Unicode.bind at 1. unfold Unicode.lift at 1. rewrite Hname.
    reflexivity.
Qed.

(** X8. A failure after the flags check is not rolled back: when the
    target-info descriptor or the AV pairs do not decode, the error is
    returned and the session keeps the ServerChallenge taken from bytes
    24-32 of the refused message; no other field is changed. *)
Theorem AcceptSecContext_late_failure
    (sc : bytes) (n : Unicode.NtlmProvider) (targetName : bytes) (e : error) :
  challenge_checks sc n targetName ->
  Unicode.extractFields (slice 40 48 sc) sc = Err e
  \/ (exists targetInfo,
        Unicode.extractFields (slice 40 48 sc) sc = Ok targetInfo
        /\ Unicode.NewAvPairs targetInfo = Err e) ->
  Unicode.AcceptSecContext sc n
  = (Err e, Unicode.set_ServerChallenge (slice 24 32 sc) n).
Proof.
  intros (Hlen & Hsig & Hty & Hname & Hrt & Hnti) Hfail.
  unfold Unicode.AcceptSecContext.
  destruct (Nat.ltb_spec (length sc) 48) as [Hlt | _]; [lia |].
  apply bytes_eqb_eq in Hsig. rewrite Hsig, Hty.
  cbn [negb Z.eqb MessageTypeNtLmChallenge Pos.eqb].
  unfold Unicode.bind at 1. unfold Unicode.lift at 1. rewrite Hname.
  unfold Unicode.bind at 1. unfold Unicode.gets at 1.
  apply Z.eqb_neq in Hrt, Hnti. rewrite Hrt, Hnti. cbn [orb].
  unfold Unicode.bind at 1. unfold Unicode.modify at 1.
  unfold Unicode.bind at 1. unfold Unicode.lift at 1.
  destruct Hfail as [Hinfo | (targetInfo & Hinfo & Hpairs)]; rewrite Hinfo.
  - reflexivity.
  - unfold Unicode.bind at 1. unfold Unicode.lift at 1. rewrite Hpairs.
    reflexivity.
Qed.

(** X9. When NewTargetInformation returns an error, the value it
    returned with the error is still assigned to TargetInfo: the
    session is left with that TargetInfo and the new ServerChallenge. *)
Theorem AcceptSecContext_target_info_failure
    (sc : bytes) (n : Unicode.NtlmProvider) (targetName targetInfo : bytes)
    (avpairs : AvPairs) (ti : option TargetInformation) (e : error) :
  challenge_checks sc n targetName ->
  Unicode.extractFields (slice 40 48 sc) sc = Ok targetInfo ->
  Unicode.NewAvPairs targetInfo = Ok avpairs ->
  Unicode.NewTargetInformation avpairs = (ti, Some e) ->
  Unicode.AcceptSecContext sc n
  = (Err e, Unicode.set_TargetInfo ti
              (Unicode.set_ServerChallenge (slice 24 32 sc) n)).
Proof.
  intros (Hlen & Hsig & Hty & Hname & Hrt & Hnti) Hinfo Hpairs Hti.
  unfold Unicode.AcceptSecContext.
  destruct (Nat.ltb_spec (length sc) 48) as [Hlt | _]; [lia |].
  apply bytes_eqb_eq in Hsig. rewrite Hsig, Hty.
  cbn [negb Z.eqb MessageTypeNtLmChallenge Pos.eqb].
  unfold Unicode.bind at 1. unfold Unicode.lift at 1. rewrite Hname.
  unfold Unicode.bind at 1. unfold Unicode.gets at 1.
  apply Z.eqb_neq in Hrt, Hnti. rewrite Hrt, Hnti. cbn [orb].
  unfold Unicode.bind at 1. unfold Unicode.modify at 1.
  unfold Unicode.bind at 1. unfold Unicode.lift at 1. rewrite Hinfo.
  unfold Unicode.bind at 1. unfold Unicode.lift at 1. rewrite Hpairs.
  rewrite Hti.
  unfold Unicode.bind at 1. unfold Unicode.modify at 1.
  unfold Unicode.bind at 1. cbn [Unicode.check]. unfold Unicode.fail.
  reflexivity.
Qed.

(** X12. After a successful AcceptSecContext the session holds the
    four keys derived from its ExportedSessionKey and NegotiateFlags:
    the server and client signing keys are what [signKey] returns for
    the server-to-client and client-to-server signing constants, and
    the client and server cipher handles are RC4 ciphers freshly keyed
    with what [sealKey] returns for the client-to-server and
    server-to-client sealing constants (keys of 1 to 256 bytes). *)
Theorem AcceptSecContext_session_keys
    (sc : bytes) (n n' : Unicode.NtlmProvider) (out : bytes) :
  Unicode.AcceptSecContext sc n = (Ok out, n') ->
  let key := Unicode.ExportedSessionKey n' in
  let flags := Unicode.NegotiateFlags n' in
  Unicode.signKey key magic_server_signing flags
    = (Unicode.ServerSigningKey n', None)
  /\ Unicode.signKey key magic_client_signing flags
     = (Unicode.ClientSigningKey n', None)
  /\ (exists sealedClientKey c,
        Unicode.sealKey key magic_client_sealing flags = Ok sealedClientKey
        /\ (1 <= length sealedClientKey <= 256)%nat
        /\ Crypto.NewCipher sealedClientKey = Ok c
        /\ Unicode.ClientHandle n' = Some c)
  /\ (exists sealedServerKey c,
        Unicode.sealKey key magic_server_sealing flags = Ok sealedServerKey
        /\ (1 <= length sealedServerKey <= 256)%nat
        /\ Crypto.NewCipher sealedServerKey = Ok c
        /\ Unicode.ServerHandle n' = Some c).
Proof.
  intros Hrun.
  apply AcceptSecContext_steps in Hrun
    as (targetName & targetInfo & avpairs & ti & lm & n1 & nt & n2 & ssk & csk
        & sck & ssck & cc & cs & _ & _ & _ & _ & _ & _ & Hssk & Hcsk & Hsck
        & Hssck & Hcc & Hcs & Hn' & _).
  subst n'. cbv zeta.
  cbn [accepted_session Unicode.ExportedSessionKey Unicode.NegotiateFlags
       Unicode.ServerSigningKey Unicode.ClientSigningKey
       Unicode.ClientHandle Unicode.ServerHandle
       Unicode.set_ServerHandle Unicode.set_ClientHandle
       Unicode.set_ClientSigningKey Unicode.set_ServerSigningKey
       Unicode.set_AuthenticateMessage].
  split; [exact Hssk |]. split; [exact Hcsk |]. split.
  - exists sck, cc. split; [exact Hsck |].
    split; [apply (NewCipher_Ok_length sck cc Hcc) |]. split; [exact Hcc | reflexivity].
  - exists ssck, cs. split; [exact Hssck |].
    split; [apply (NewCipher_Ok_length ssck cs Hcs) |]. split; [exact Hcs | reflexivity].
Qed.

End AcceptOutcomes.

Section SignAfterAccept.
Context `{Constants} `{Strings} `{Unicode.Helpers}.

Lemma GetMIC_all_returns (msgs : list bytes) (n : Unicode.NtlmProvider) :
  can_sign n ->
  exists sigs n',
    GetMIC_all msgs n = Some (sigs, n')
    /\ length sigs = length msgs
    /\ Forall (fun sig =>
                 length sig
                 = if Z.land (Unicode.NegotiateFlags n) NegotiateSign =? 0
                   then 0%nat else 16%nat) sigs.
Proof.
  revert n. induction msgs as [| bs rest IH]; intros n Hc.
  - exists [], n. split; [reflexivity |]. split; [reflexivity | constructor].
  - cbn [GetMIC_all]. unfold Unicode.GetMIC.
    destruct (Z.eqb_spec (Z.land (Unicode.NegotiateFlags n) NegotiateSign) 0)
      as [Hz | Hz].
    + destruct (IH n Hc) as (sigs & n' & Hrun & Hlen & Hall).
      rewrite Hrun. exists ([] :: sigs), n'.
      split; [reflexivity |]. split; [cbn [length]; lia |].
      apply Z.eqb_eq in Hz. rewrite Hz in Hall.
      constructor; [reflexivity | exact Hall].
    + destruct (sign_returns (Unicode.NegotiateFlags n) (Unicode.ClientHandle n)
                  (Unicode.ClientSigningKey n) (Unicode.SequenceNumber n) bs Hc)
        as (sig & h' & Hsign & Hlen16 & _ & Hsame).
      rewrite Hsign.
      assert (Hc' : can_sign (Unicode.set_SequenceNumber
                                (wrap32 (Unicode.SequenceNumber n + 1))
                                (Unicode.set_ClientHandle h' n))).
      { unfold can_sign in *.
        cbn [Unicode.NegotiateFlags Unicode.ClientHandle
             Unicode.set_SequenceNumber Unicode.set_ClientHandle].
        destruct (Z.eq_dec (Z.land (Unicode.NegotiateFlags n) NegotiateKeyExch) 0)
          as [Hk | Hk]; [left; exact Hk | right].
        unfold sign in Hsign. cbv zeta in Hsign.
        destruct (Z.eqb_spec (Z.land (Unicode.NegotiateFlags n) NegotiateKeyExch) 0);
          [contradiction |].
        destruct (Unicode.ClientHandle n) as [c |]; [| discriminate].
        destruct (Crypto.XORKeyStream c _) as [o c'].
        inversion Hsign. discriminate. }
      destruct (IH _ Hc') as (sigs & n' & Hrun & Hlen & Hall).
      rewrite Hrun. exists (sig :: sigs), n'.
      split; [reflexivity |]. split; [cbn [length]; lia |].
      cbn [Unicode.NegotiateFlags Unicode.set_SequenceNumber
           Unicode.set_ClientHandle] in Hall.
      apply Z.eqb_neq in Hz. rewrite Hz in Hall.
      constructor; [exact Hlen16 | exact Hall].
Qed.

(** X13. After a successful AcceptSecContext every run of GetMIC calls
    returns: the client cipher exists, so no call panics, and each call
    yields the empty buffer (NegotiateSign absent) or a 16-byte
    signature (NegotiateSign set). *)
Theorem GetMIC_after_accept
    (sc : bytes) (n n' : Unicode.NtlmProvider) (out : bytes) (msgs : list bytes) :
  Unicode.AcceptSecContext sc n = (Ok out, n') ->
  Unicode.ClientHandle n' <> None
  /\ exists sigs n'',
       GetMIC_all msgs n' = Some (sigs, n'')
       /\ length sigs = length msgs
       /\ Forall (fun sig =>
                    length sig
                    = if Z.land (Unicode.NegotiateFlags n') NegotiateSign =? 0
                      then 0%nat else 16%nat) sigs.
Proof.
  intros Hrun.
  apply AcceptSecContext_steps in Hrun
    as (targetName & targetInfo & avpairs & ti & lm & n1 & nt & n2 & ssk & csk
        & sck & ssck & cc & cs & _ & _ & _ & _ & _ & _ & _ & _ & _ & _ & _ & _
        & Hn' & _).
  assert (Hh : Unicode.ClientHandle n' <> None) by (subst n'; discriminate).
  split; [exact Hh |].
  apply GetMIC_all_returns. right. exact Hh.
Qed.

End SignAfterAccept.

Section AcceptMore.
Context `{Constants} `{Strings} `{Unicode.Helpers}.

(** X14. The responses in the AUTHENTICATE message are built on the
    session as the CHALLENGE updated it: the LM response, first in the
    payload (offset 88), is what NewLMChallengeResponse returns once
    ServerChallenge and TargetInfo are set from the CHALLENGE, and the
    NT response, right after it, is what NewNtChallengeResponse returns
    for the target name extracted from the CHALLENGE on the session the
    LM builder left. *)
Theorem AcceptSecContext_responses
    (sc : bytes) (n n' : Unicode.NtlmProvider) (out : bytes) :
  Unicode.AcceptSecContext sc n = (Ok out, n') ->
  exists targetName targetInfo avpairs ti lm n1 nt n2,
    Unicode.extractFields (slice 12 20 sc) sc = Ok targetName
    /\ Unicode.extractFields (slice 40 48 sc) sc = Ok targetInfo
    /\ Unicode.NewAvPairs targetInfo = Ok avpairs
    /\ Unicode.NewTargetInformation avpairs = (ti, None)
    /\ Unicode.NewLMChallengeResponse
         (Unicode.set_TargetInfo ti (Unicode.set_ServerChallenge (slice 24 32 sc) n))
       = (lm, n1)
    /\ Unicode.NewNtChallengeResponse targetName n1 = (Ok nt, n2)
    /\ slice 88 (88 + length lm) out = lm
    /\ slice (88 + length lm) (88 + length lm + length nt) out = nt.
Proof.
  intros Hrun.
  apply AcceptSecContext_steps in Hrun
    as (targetName & targetInfo & avpairs & ti & lm & n1 & nt & n2 & ssk & csk
        & sck & ssck & cc & cs & Hchk & Hinfo & Hpairs & Hti & Hlm & Hnt
        & _ & _ & _ & _ & _ & _ & _ & Hout).
  destruct Hchk as (_ & _ & _ & Hname & _).
  exists targetName, targetInfo, avpairs, ti, lm, n1, nt, n2.
  repeat (split; [assumption |]).
  cbv zeta in Hout.
  match type of Hout with _ = copy (?h ++ _) _ _ _ =>
    assert (Hl : length h = 88%nat) by apply length_authenticate_header;
    set (hdr := h) in * end.
  rewrite Hout. rewrite !slice_emitted_high by (exact Hl || lia).
  split.
  - apply slice_app_first. exact Hl.
  - replace (hdr ++ lm ++ nt ++ _) with (hdr ++ lm ++ nt ++
      (ToUnicode (ToUpper (Unicode.Domain n2)) ++
       ToUnicode (ToUpper (Unicode.User n2)) ++
       ToUnicode (ToUpper (Unicode.Workstation n2)) ++
       Unicode.RandomSessionKey n2)) by reflexivity.
    set (rest := ToUnicode _ ++ _).
    replace (hdr ++ lm ++ nt ++ rest) with ((hdr ++ lm) ++ nt ++ rest)
      by (rewrite <- app_assoc; reflexivity).
    replace (88 + length lm)%nat with (length (hdr ++ lm))
      by (rewrite length_app, Hl; reflexivity).
    apply slice_app_mid.
Qed.

(** X15. A session whose NegotiateFlags are zero, as before
    InitSecContext, cannot accept any CHALLENGE: AcceptSecContext
    returns an error for every buffer and leaves the session
    untouched. *)
Theorem AcceptSecContext_needs_flags (sc : bytes) (n : Unicode.NtlmProvider) :
  Unicode.NegotiateFlags n = 0 ->
  exists e, Unicode.AcceptSecContext sc n = (Err e, n).
Proof.
  intros Hz. unfold Unicode.AcceptSecContext.
  destruct (length sc <? 48)%nat; [eexists; reflexivity |].
  destruct (negb (bytes_eqb (slice 0 8 sc) Signature)); [eexists; reflexivity |].
  destruct (negb (Uint32 (slice 8 12 sc) =? MessageTypeNtLmChallenge));
    [eexists; reflexivity |].
  unfold Unicode.bind at 1. unfold Unicode.lift at 1.
  destruct (Unicode.extractFields (slice 12 20 sc) sc) as [targetName | e];
    [| eexists; reflexivity].
  unfold Unicode.bind at 1. unfold Unicode.gets at 1.
  rewrite Hz, !Z.land_0_l. cbn [Z.eqb orb].
  eexists. reflexivity.
Qed.

End AcceptMore.

(** ** The further properties on the reference environment *)

Section ReferenceLayouts.
#[local] Existing Instance Reference.constants.
#[local] Existing Instance Reference.strings.
#[local] Existing Instance Reference.helpers.

Lemma reference_run :
  exists out n',
    Unicode.AcceptSecContext Reference.challenge Reference.negotiated = (Ok out, n').
Proof. eexists. eexists. vm_compute. reflexivity. Defined.

Lemma reference_checks :
  challenge_checks Reference.challenge Reference.negotiated (Reference.utf16le "DOM").
Proof.
  unfold challenge_checks.
  split; [vm_compute; lia |]. split; [vm_compute; reflexivity |].
  split; [vm_compute; reflexivity |]. split; [vm_compute; reflexivity |].
  split; vm_compute; discriminate.
Defined.

Lemma InitSecContext_fixed_header_witness :
  (exists msg n', Unicode.InitSecContext Reference.client = (Ok msg, n')
     /\ slice 0 8 msg = Signature
     /\ Uint32 (slice 8 12 msg) = 1
     /\ slice 32 40 msg = ClientVersion
     /\ (40 <= length msg)%nat)
  /\ (exists msg m', Oem.InitSecContext Reference.oem_client = (Ok msg, m')
     /\ slice 0 8 msg = Signature
     /\ Uint32 (slice 8 12 msg) = 1
     /\ slice 32 40 msg = ClientVersion
     /\ (40 <= length msg)%nat).
Proof.
  apply (@InitSecContext_fixed_header Reference.constants Reference.strings
           Reference.client Reference.oem_client); reflexivity.
Defined.

Lemma InitSecContext_names_witness :
  exists msg n',
    Unicode.InitSecContext Reference.client = (Ok msg, n')
    /\ Unicode.NegotiateMessage n' = msg
    /\ let d := supplied_name (Unicode.Domain Reference.client) in
       let w := supplied_name (Unicode.Workstation Reference.client) in
       length msg = (40 + length d + length w)%nat
       /\ slice 40 (40 + length d) msg = d
       /\ slice (40 + length d) (40 + length d + length w) msg = w
       /\ read_descriptor msg 16
          = descriptor_of (negb (is_empty (Unicode.Domain Reference.client))) d 40
       /\ read_descriptor msg 24
          = descriptor_of (negb (is_empty (Unicode.Workstation Reference.client)))
              w (40 + len d).
Proof.
  apply (@InitSecContext_names Reference.constants Reference.strings
           Reference.client). reflexivity.
Defined.

Lemma Oem_InitSecContext_names_witness :
  exists msg m',
    Oem.InitSecContext Reference.oem_client = (Ok msg, m')
    /\ Oem.NegotiateMessage m' = msg
    /\ let d := oem_supplied_name (Oem.IsOEM Reference.oem_client)
                  (Oem.Domain Reference.oem_client) in
       let w := oem_supplied_name (Oem.IsOEM Reference.oem_client)
                  (Oem.Workstation Reference.oem_client) in
       length msg = (40 + length d + length w)%nat
       /\ slice 40 (40 + length d) msg = d
       /\ slice (40 + length d) (40 + length d + length w) msg = w
       /\ read_descriptor msg 16
          = descriptor_of (negb (is_empty (Oem.Domain Reference.oem_client))
                           && Oem.IsOEM Reference.oem_client) d 40
       /\ read_descriptor msg 24
          = descriptor_of (negb (is_empty (Oem.Workstation Reference.oem_client))
                           && Oem.IsOEM Reference.oem_client) w (40 + len d).
Proof.
  apply (@Oem_InitSecContext_names Reference.constants Reference.strings
           Reference.oem_client). reflexivity.
Defined.

Lemma Oem_InitSecContext_without_oem_witness :
  exists msg m',
    Oem.InitSecContext Reference.oem_off_client = (Ok msg, m')
    /\ length msg = 40%nat
    /\ read_descriptor msg 16 = (0, 0, 0)
    /\ read_descriptor msg 24 = (0, 0, 0)
    /\ Uint32 (slice 12 16 msg) = wrap32 (oem_requested_flags Reference.oem_off_client).
Proof.
  apply (@Oem_InitSecContext_without_oem Reference.constants Reference.strings
           Reference.oem_off_client); reflexivity.
Defined.

Lemma AcceptSecContext_accepts_only_valid_witness :
  exists out n',
    Unicode.AcceptSecContext Reference.challenge Reference.negotiated = (Ok out, n')
    /\ (48 <= length Reference.challenge)%nat
    /\ slice 0 8 Reference.challenge = Signature
    /\ Uint32 (slice 8 12 Reference.challenge) = 2.
Proof.
  destruct reference_run as (out & n' & Hrun).
  exists out, n'. split; [exact Hrun |].
  pose proof (@AcceptSecContext_accepts_only_valid Reference.constants
                Reference.strings Reference.helpers Reference.challenge
                Reference.negotiated n' out Hrun) as (Hlen & Hsig & Hty & _).
  auto.
Defined.

Lemma AcceptSecContext_check_order_witness :
  Unicode.AcceptSecContext Reference.challenge_bad_header Reference.negotiated
    = (Err (errorString "invalid signature"), Reference.negotiated)
  /\ Unicode.AcceptSecContext Reference.challenge_bad_type Reference.negotiated
     = (Err (errorString "invalid message type"), Reference.negotiated)
  /\ Unicode.AcceptSecContext Reference.challenge_bad_name Reference.negotiated
     = (Err (errorString "invalid field bounds"), Reference.negotiated).
Proof.
  split; [| split].
  - apply (proj1 (@AcceptSecContext_check_order Reference.constants
                    Reference.strings Reference.helpers
                    Reference.challenge_bad_header Reference.negotiated
                    (errorString "") ltac:(vm_compute; lia))).
    vm_compute. discriminate.
  - apply (proj1 (proj2 (@AcceptSecContext_check_order Reference.constants
                    Reference.strings Reference.helpers
                    Reference.challenge_bad_type Reference.negotiated
                    (errorString "") ltac:(vm_compute; lia)))).
    + vm_compute. reflexivity.
    + vm_compute. discriminate.
  - apply (proj2 (proj2 (@AcceptSecContext_check_order Reference.constants
                    Reference.strings Reference.helpers
                    Reference.challenge_bad_name Reference.negotiated
                    (errorString "invalid field bounds") ltac:(vm_compute; lia)))).
    + vm_compute. reflexivity.
    + vm_compute. reflexivity.
    + vm_compute. reflexivity.
Defined.

Lemma bad_info_checks :
  challenge_checks Reference.challenge_bad_info Reference.negotiated
    (Reference.utf16le "DOM").
Proof.
  unfold challenge_checks.
  split; [vm_compute; lia |]. split; [vm_compute; reflexivity |].
  split; [vm_compute; reflexivity |]. split; [vm_compute; reflexivity |].
  split; vm_compute; discriminate.
Defined.

Lemma AcceptSecContext_late_failure_witness :
  Unicode.AcceptSecContext Reference.challenge_bad_info Reference.negotiated
  = (Err (errorString "invalid field bounds"),
     Unicode.set_ServerChallenge (slice 24 32 Reference.challenge_bad_info)
       Reference.negotiated).
Proof.
  apply (@AcceptSecContext_late_failure Reference.constants Reference.strings
           Reference.helpers Reference.challenge_bad_info Reference.negotiated
           (Reference.utf16le "DOM") (errorString "invalid field bounds")).
  - exact bad_info_checks.
  - left. vm_compute. reflexivity.
Defined.

Lemma AcceptSecContext_target_info_failure_witness :
  @Unicode.AcceptSecContext Reference.constants Reference.strings
     Reference.rejecting_helpers Reference.challenge Reference.negotiated
  = (Err (errorString "invalid target information"),
     Unicode.set_TargetInfo None
       (Unicode.set_ServerChallenge (slice 24 32 Reference.challenge)
          Reference.negotiated)).
Proof.
  apply (@AcceptSecContext_target_info_failure Reference.constants Reference.strings
           Reference.rejecting_helpers Reference.challenge Reference.negotiated
           (Reference.utf16le "DOM") Reference.targetInfoBytes
           [(2, Reference.utf16le "DOM"); (1, Reference.utf16le "SRV")]
           None (errorString "invalid target information")).
  - exact reference_checks.
  - vm_compute. reflexivity.
  - vm_compute. reflexivity.
  - reflexivity.
Defined.

Lemma AcceptSecContext_fixed_header_witness :
  exists out n',
    Unicode.AcceptSecContext Reference.challenge Reference.negotiated = (Ok out, n')
    /\ slice 0 8 out = Signature
    /\ Uint32 (slice 8 12 out) = 3
    /\ Uint32 (slice 60 64 out) = wrap32 (Unicode.NegotiateFlags n')
    /\ slice 64 72 out = ClientVersion
    /\ Unicode.AuthenticateMessage n' = out.
Proof.
  destruct reference_run as (out & n' & Hrun).
  exists out, n'. split; [exact Hrun |].
  apply (@AcceptSecContext_fixed_header Reference.constants Reference.strings
           Reference.helpers Reference.challenge Reference.negotiated n' out);
    [reflexivity | reflexivity | exact Hrun].
Defined.

Lemma AcceptSecContext_session_key_field_witness :
  exists out n',
    Unicode.AcceptSecContext Reference.challenge Reference.negotiated = (Ok out, n')
    /\ let key := Unicode.RandomSessionKey n' in
       (88 + length key <= length out)%nat
       /\ skipn (length out - length key) out = key
       /\ read_descriptor out 52
          = descriptor_of true key (Z.of_nat (length out - length key)).
Proof.
  destruct reference_run as (out & n' & Hrun).
  exists out, n'. split; [exact Hrun |].
  exact (@AcceptSecContext_session_key_field Reference.constants Reference.strings
           Reference.helpers Reference.challenge Reference.negotiated n' out Hrun).
Defined.

Lemma AcceptSecContext_session_keys_witness :
  exists out n',
    Unicode.AcceptSecContext Reference.challenge Reference.negotiated = (Ok out, n')
    /\ Unicode.signKey (Unicode.ExportedSessionKey n') magic_server_signing
         (Unicode.NegotiateFlags n') = (Unicode.ServerSigningKey n', None)
    /\ Unicode.signKey (Unicode.ExportedSessionKey n') magic_client_signing
         (Unicode.NegotiateFlags n') = (Unicode.ClientSigningKey n', None).
Proof.
  destruct reference_run as (out & n' & Hrun).
  exists out, n'. split; [exact Hrun |].
  pose proof (@AcceptSecContext_session_keys Reference.constants Reference.strings
                Reference.helpers Reference.challenge Reference.negotiated n' out Hrun)
    as (Hs & Hc & _).
  split; [exact Hs | exact Hc].
Defined.

Lemma GetMIC_after_accept_witness :
  exists out n',
    Unicode.AcceptSecContext Reference.challenge Reference.negotiated = (Ok out, n')
    /\ Unicode.ClientHandle n' <> None
    /\ exists sigs n'',
         GetMIC_all [[1]; [2]; [3]] n' = Some (sigs, n'')
         /\ length sigs = 3%nat
         /\ Forall (fun sig =>
                      length sig
                      = if Z.land (Unicode.NegotiateFlags n') NegotiateSign =? 0
                        then 0%nat else 16%nat) sigs.
Proof.
  destruct reference_run as (out & n' & Hrun).
  exists out, n'. split; [exact Hrun |].
  exact (@GetMIC_after_accept Reference.constants Reference.strings
           Reference.helpers Reference.challenge Reference.negotiated n' out
           [[1]; [2]; [3]] Hrun).
Defined.

Lemma AcceptSecContext_responses_witness :
  exists out n',
    Unicode.AcceptSecContext Reference.challenge Reference.negotiated = (Ok out, n')
    /\ exists targetName targetInfo avpairs ti lm n1 nt n2,
         Unicode.extractFields (slice 12 20 Reference.challenge) Reference.challenge
           = Ok targetName
         /\ Unicode.extractFields (slice 40 48 Reference.challenge) Reference.challenge
            = Ok targetInfo
         /\ Unicode.NewAvPairs targetInfo = Ok avpairs
         /\ Unicode.NewTargetInformation avpairs = (ti, None)
         /\ Unicode.NewLMChallengeResponse
              (Unicode.set_TargetInfo ti
                 (Unicode.set_ServerChallenge (slice 24 32 Reference.challenge)
                    Reference.negotiated))
            = (lm, n1)
         /\ Unicode.NewNtChallengeResponse targetName n1 = (Ok nt, n2)
         /\ slice 88 (88 + length lm) out = lm
         /\ slice (88 + length lm) (88 + length lm + length nt) out = nt.
Proof.
  destruct reference_run as (out & n' & Hrun).
  exists out, n'. split; [exact Hrun |].
  exact (@AcceptSecContext_responses Reference.constants Reference.strings
           Reference.helpers Reference.challenge Reference.negotiated n' out Hrun).
Defined.

Lemma AcceptSecContext_needs_flags_witness :
  exists e,
    Unicode.AcceptSecContext Reference.challenge Reference.client
    = (Err e, Reference.client).
Proof.
  apply (@AcceptSecContext_needs_flags Reference.constants Reference.strings
           Reference.helpers Reference.challenge Reference.client).
  reflexivity.
Defined.

End ReferenceLayouts.
